(** * FlightSimulator: the simulation core of [FlightSimulator.ts]

    A shallow embedding of the class [FlightSimulator]: the per-frame update
    ([animate], [updateFlight], [checkCollisions], [updateBullets],
    [updateBalloons], [updateWeather], [updateTimer], [shoot]), the reset action
    and the input handlers, followed by the properties of the fields the game
    logic reads and writes.

    Numbers.  JavaScript numbers are IEEE doubles; the embedding computes with
    exact rationals ([Q]) for every quantity the code treats as a real, and with
    [Z] for the integer-valued counters (health, score, millisecond clocks).
    Equalities between computed rationals are stated with [==].

    What is outside the class.  [Math.sin], and the three.js operations that use
    square roots or trigonometry ([applyQuaternion], the size of the aircraft's
    bounding box, [normalize]) are parameters of the development.  Comparisons
    of a length with a constant are made on the squares, which is the same
    comparison over the reals.  [Date.now()] and [Math.random()] are inputs of
    the handler that calls them.  Rendering, the camera, the HUD, sound, rain
    drops, clouds and speed lines do not feed back into the fields below and
    are left out. *)

From Stdlib Require Import QArith Qminmax Qabs Qround Lqa ZArith Lia.
From stdpp Require Import base gmap strings list.

Open Scope Q_scope.

(** ** Comparisons of numbers, as booleans *)

Definition Qltb (a b : Q) : bool := negb (Qle_bool b a).

(** [Math.PI] is the double nearest to pi; its exact value is this fraction. *)
Definition Math_PI : Q := 884279719003555 # 281474976710656.

(** ** three.js values *)

Module THREE.

Record Vector3 := mkVector3 { x : Q; y : Q; z : Q }.

Definition add (a b : Vector3) : Vector3 :=
  mkVector3 (x a + x b) (y a + y b) (z a + z b).

Definition sub (a b : Vector3) : Vector3 :=
  mkVector3 (x a - x b) (y a - y b) (z a - z b).

Definition multiplyScalar (a : Vector3) (s : Q) : Vector3 :=
  mkVector3 (x a * s) (y a * s) (z a * s).

Definition lengthSq (a : Vector3) : Q := x a * x a + y a * y a + z a * z a.

Definition distanceToSquared (a b : Vector3) : Q := lengthSq (sub a b).

(** [a.length() > r], compared on the squares. *)
Definition length_gt (a : Vector3) (r : Q) : bool :=
  Qltb r 0 || Qltb (r * r) (lengthSq a).

(** [a.distanceTo(b) < r], compared on the squares. *)
Definition distance_lt (a b : Vector3) (r : Q) : bool :=
  Qltb 0 r && Qltb (distanceToSquared a b) (r * r).

(** Componentwise equality of the rationals. *)
Definition veq (a b : Vector3) : Prop := x a == x b /\ y a == y b /\ z a == z b.

(** The orientation of an [Object3D], kept as the calls that built it:
    [rotation.set(x, y, z)] (or a [new THREE.Euler(x, y, z)] copied into
    it), followed by [rotateY], [rotateX] and [rotateZ] about the local
    axes. *)
Inductive Orientation : Type :=
| Euler (ex ey ez : Q)
| rotateY (o : Orientation) (angle : Q)
| rotateX (o : Orientation) (angle : Q)
| rotateZ (o : Orientation) (angle : Q).

End THREE.
Import THREE.

Infix "=v=" := veq (at level 70, no associativity).

(** ** The objects of the scene *)

Inductive Difficulty : Type := simple | hard.

(** A bullet is a mesh with a [position] and the [velocity] given to it by
    [shoot]. *)
Record Bullet := mkBullet { bullet_position : Vector3; bullet_velocity : Vector3 }.

(** A balloon is a mesh with a [position]; [userData.velocity] is set in hard
    mode only. *)
Record Balloon := mkBalloon { balloon_position : Vector3; userData_velocity : option Vector3 }.

Record Obstacle := mkObstacle { obstacle_position : Vector3 }.

(** ** The fields of the class

    [respawnTimers] holds the balloons captured by the [setTimeout] callbacks of
    [updateBullets] that have not run yet, oldest first. *)
Record FlightSimulator := mkFlightSimulator {
  airplane_position : Vector3;
  airplane_rotation : Orientation;
  speed : Q;
  pitch : Q;
  roll : Q;
  yaw : Q;
  altitude : Q;
  keys : gmap string bool;
  bullets : list Bullet;
  balloons : list Balloon;
  obstacles : list Obstacle;
  score : Z;
  lastShot : Z;
  health : Z;
  isGameOver : bool;
  weatherIntensity : Q;
  startTime : Z;
  elapsedTime : Q;
  isShooting : bool;
  difficulty : Difficulty;
  respawnTimers : list Balloon
}.

Definition maxSpeed : Q := 3.
Definition minSpeed : Q := 0.5.
Definition shotCooldown : Z := 50.
Definition initialPosition : Vector3 := mkVector3 0 2 50.
Definition initialRotation : Orientation := Euler 0 0 0.

(** Field updates. *)
Definition set_airplane_position (v : Vector3) (this : FlightSimulator) : FlightSimulator :=
  mkFlightSimulator v (airplane_rotation this) (speed this) (pitch this) (roll this) (yaw this)
    (altitude this) (keys this) (bullets this) (balloons this) (obstacles this) (score this)
    (lastShot this) (health this) (isGameOver this) (weatherIntensity this) (startTime this)
    (elapsedTime this) (isShooting this) (difficulty this) (respawnTimers this).
Definition set_airplane_rotation (v : Orientation) (this : FlightSimulator) : FlightSimulator :=
  mkFlightSimulator (airplane_position this) v (speed this) (pitch this) (roll this) (yaw this)
    (altitude this) (keys this) (bullets this) (balloons this) (obstacles this) (score this)
    (lastShot this) (health this) (isGameOver this) (weatherIntensity this) (startTime this)
    (elapsedTime this) (isShooting this) (difficulty this) (respawnTimers this).
Definition set_speed (v : Q) (this : FlightSimulator) : FlightSimulator :=
  mkFlightSimulator (airplane_position this) (airplane_rotation this) v (pitch this) (roll this)
    (yaw this) (altitude this) (keys this) (bullets this) (balloons this) (obstacles this)
    (score this) (lastShot this) (health this) (isGameOver this) (weatherIntensity this)
    (startTime this) (elapsedTime this) (isShooting this) (difficulty this)
    (respawnTimers this).
Definition set_pitch (v : Q) (this : FlightSimulator) : FlightSimulator :=
  mkFlightSimulator (airplane_position this) (airplane_rotation this) (speed this) v (roll this)
    (yaw this) (altitude this) (keys this) (bullets this) (balloons this) (obstacles this)
    (score this) (lastShot this) (health this) (isGameOver this) (weatherIntensity this)
    (startTime this) (elapsedTime this) (isShooting this) (difficulty this)
    (respawnTimers this).
Definition set_roll (v : Q) (this : FlightSimulator) : FlightSimulator :=
  mkFlightSimulator (airplane_position this) (airplane_rotation this) (speed this) (pitch this)
    v (yaw this) (altitude this) (keys this) (bullets this) (balloons this) (obstacles this)
    (score this) (lastShot this) (health this) (isGameOver this) (weatherIntensity this)
    (startTime this) (elapsedTime this) (isShooting this) (difficulty this)
    (respawnTimers this).
Definition set_yaw (v : Q) (this : FlightSimulator) : FlightSimulator :=
  mkFlightSimulator (airplane_position this) (airplane_rotation this) (speed this) (pitch this)
    (roll this) v (altitude this) (keys this) (bullets this) (balloons this) (obstacles this)
    (score this) (lastShot this) (health this) (isGameOver this) (weatherIntensity this)
    (startTime this) (elapsedTime this) (isShooting this) (difficulty this)
    (respawnTimers this).
Definition set_altitude (v : Q) (this : FlightSimulator) : FlightSimulator :=
  mkFlightSimulator (airplane_position this) (airplane_rotation this) (speed this) (pitch this)
    (roll this) (yaw this) v (keys this) (bullets this) (balloons this) (obstacles this)
    (score this) (lastShot this) (health this) (isGameOver this) (weatherIntensity this)
    (startTime this) (elapsedTime this) (isShooting this) (difficulty this)
    (respawnTimers this).
Definition set_keys (v : gmap string bool) (this : FlightSimulator) : FlightSimulator :=
  mkFlightSimulator (airplane_position this) (airplane_rotation this) (speed this) (pitch this)
    (roll this) (yaw this) (altitude this) v (bullets this) (balloons this) (obstacles this)
    (score this) (lastShot this) (health this) (isGameOver this) (weatherIntensity this)
    (startTime this) (elapsedTime this) (isShooting this) (difficulty this)
    (respawnTimers this).
Definition set_bullets (v : list Bullet) (this : FlightSimulator) : FlightSimulator :=
  mkFlightSimulator (airplane_position this) (airplane_rotation this) (speed this) (pitch this)
    (roll this) (yaw this) (altitude this) (keys this) v (balloons this) (obstacles this)
    (score this) (lastShot this) (health this) (isGameOver this) (weatherIntensity this)
    (startTime this) (elapsedTime this) (isShooting this) (difficulty this)
    (respawnTimers this).
Definition set_balloons (v : list Balloon) (this : FlightSimulator) : FlightSimulator :=
  mkFlightSimulator (airplane_position this) (airplane_rotation this) (speed this) (pitch this)
    (roll this) (yaw this) (altitude this) (keys this) (bullets this) v (obstacles this)
    (score this) (lastShot this) (health this) (isGameOver this) (weatherIntensity this)
    (startTime this) (elapsedTime this) (isShooting this) (difficulty this)
    (respawnTimers this).
Definition set_score (v : Z) (this : FlightSimulator) : FlightSimulator :=
  mkFlightSimulator (airplane_position this) (airplane_rotation this) (speed this) (pitch this)
    (roll this) (yaw this) (altitude this) (keys this) (bullets this) (balloons this)
    (obstacles this) v (lastShot this) (health this) (isGameOver this) (weatherIntensity this)
    (startTime this) (elapsedTime this) (isShooting this) (difficulty this)
    (respawnTimers this).
Definition set_lastShot (v : Z) (this : FlightSimulator) : FlightSimulator :=
  mkFlightSimulator (airplane_position this) (airplane_rotation this) (speed this) (pitch this)
    (roll this) (yaw this) (altitude this) (keys this) (bullets this) (balloons this)
    (obstacles this) (score this) v (health this) (isGameOver this) (weatherIntensity this)
    (startTime this) (elapsedTime this) (isShooting this) (difficulty this)
    (respawnTimers this).
Definition set_health (v : Z) (this : FlightSimulator) : FlightSimulator :=
  mkFlightSimulator (airplane_position this) (airplane_rotation this) (speed this) (pitch this)
    (roll this) (yaw this) (altitude this) (keys this) (bullets this) (balloons this)
    (obstacles this) (score this) (lastShot this) v (isGameOver this) (weatherIntensity this)
    (startTime this) (elapsedTime this) (isShooting this) (difficulty this)
    (respawnTimers this).
Definition set_isGameOver (v : bool) (this : FlightSimulator) : FlightSimulator :=
  mkFlightSimulator (airplane_position this) (airplane_rotation this) (speed this) (pitch this)
    (roll this) (yaw this) (altitude this) (keys this) (bullets this) (balloons this)
    (obstacles this) (score this) (lastShot this) (health this) v (weatherIntensity this)
    (startTime this) (elapsedTime this) (isShooting this) (difficulty this)
    (respawnTimers this).
Definition set_weatherIntensity (v : Q) (this : FlightSimulator) : FlightSimulator :=
  mkFlightSimulator (airplane_position this) (airplane_rotation this) (speed this) (pitch this)
    (roll this) (yaw this) (altitude this) (keys this) (bullets this) (balloons this)
    (obstacles this) (score this) (lastShot this) (health this) (isGameOver this) v
    (startTime this) (elapsedTime this) (isShooting this) (difficulty this)
    (respawnTimers this).
Definition set_startTime (v : Z) (this : FlightSimulator) : FlightSimulator :=
  mkFlightSimulator (airplane_position this) (airplane_rotation this) (speed this) (pitch this)
    (roll this) (yaw this) (altitude this) (keys this) (bullets this) (balloons this)
    (obstacles this) (score this) (lastShot this) (health this) (isGameOver this)
    (weatherIntensity this) v (elapsedTime this) (isShooting this) (difficulty this)
    (respawnTimers this).
Definition set_elapsedTime (v : Q) (this : FlightSimulator) : FlightSimulator :=
  mkFlightSimulator (airplane_position this) (airplane_rotation this) (speed this) (pitch this)
    (roll this) (yaw this) (altitude this) (keys this) (bullets this) (balloons this)
    (obstacles this) (score this) (lastShot this) (health this) (isGameOver this)
    (weatherIntensity this) (startTime this) v (isShooting this) (difficulty this)
    (respawnTimers this).
Definition set_isShooting (v : bool) (this : FlightSimulator) : FlightSimulator :=
  mkFlightSimulator (airplane_position this) (airplane_rotation this) (speed this) (pitch this)
    (roll this) (yaw this) (altitude this) (keys this) (bullets this) (balloons this)
    (obstacles this) (score this) (lastShot this) (health this) (isGameOver this)
    (weatherIntensity this) (startTime this) (elapsedTime this) v (difficulty this)
    (respawnTimers this).
Definition set_respawnTimers (v : list Balloon) (this : FlightSimulator) : FlightSimulator :=
  mkFlightSimulator (airplane_position this) (airplane_rotation this) (speed this) (pitch this)
    (roll this) (yaw this) (altitude this) (keys this) (bullets this) (balloons this)
    (obstacles this) (score this) (lastShot this) (health this) (isGameOver this)
    (weatherIntensity this) (startTime this) (elapsedTime this) (isShooting this)
    (difficulty this) v.

(** ** Inputs of the handlers *)

(** What one call of [animate] reads from outside: the four readings of
    [Date.now()] (in [updateWeather], [updateBalloons], [updateTimer] and
    [shoot]) and the two draws of [Math.random()] of the weather perturbation
    in [updateFlight]. *)
Record Frame := mkFrame {
  clock_weather : Z;
  clock_balloons : Z;
  clock_timer : Z;
  clock_shoot : Z;
  random_x : Q;
  random_y : Q
}.

(** The six draws of [Math.random()] of a respawn callback. *)
Record Draws := mkDraws { draw1 : Q; draw2 : Q; draw3 : Q; draw4 : Q; draw5 : Q; draw6 : Q }.

(** The record [MobileControls] passes to [handleMobileControls]. *)
Record Controls := mkControls {
  c_pitch : Q;
  c_roll : Q;
  c_throttle : bool;
  c_brake : bool;
  c_fire : bool
}.

Notation "s '|>' f" := (f s) (at level 45, left associativity, only parsing).

(** ** What is outside the class

    [Math.sin] and the three.js operations the class calls on vectors and on
    the aircraft. *)
Class Externals := {
  (** [Math.sin]. *)
  Math_sin : Q -> Q;
  (** [v.applyQuaternion(object.quaternion)] for an object of orientation [o]. *)
  applyQuaternion : Vector3 -> Orientation -> Vector3;
  (** The size of [new THREE.Box3().setFromObject(this.airplane)]; it depends
      on the orientation of the aircraft and not on where it is. *)
  airplaneSize : Orientation -> Vector3;
  (** [v.normalize()]. *)
  normalize : Vector3 -> Vector3
}.

(** ** The methods of the class *)

Section Simulator.

Context {ext : Externals}.

(** [this.keys[k]], with a missing key read as false. *)
Definition key (k : string) (this : FlightSimulator) : bool :=
  default false (keys this !! k).

(** *** gameOver *)
Definition gameOver (this : FlightSimulator) : FlightSimulator :=
  set_isGameOver true this.

(** *** setWeatherIntensity, updateWeather *)
Definition setWeatherIntensity (intensity : Q) (this : FlightSimulator) : FlightSimulator :=
  set_weatherIntensity (Qmax 0 (Qmin 1 intensity)) this.

Definition targetIntensity (now : Z) : Q :=
  0.3 + Math_sin (inject_Z now * 0.0005) * 0.3.

Definition updateWeather (now : Z) (this : FlightSimulator) : FlightSimulator :=
  setWeatherIntensity (targetIntensity now) this.

(** *** updateTimer *)
Definition updateTimer (now : Z) (this : FlightSimulator) : FlightSimulator :=
  if isGameOver this then this
  else set_elapsedTime (inject_Z (now - startTime this) / 1000) this.

(** *** handleMobileControls *)
Definition handleMobileControls (controls : Controls) (this : FlightSimulator)
  : FlightSimulator :=
  let this := set_pitch (c_pitch controls * (Math_PI / 6)) this in
  let this := set_roll (c_roll controls * (Math_PI / 6)) this in
  let this :=
    if c_throttle controls then set_speed (Qmin (speed this + 0.05) maxSpeed) this
    else if c_brake controls then set_speed (Qmax (speed this - 0.05) 0) this
    else this in
  set_isShooting (c_fire controls) this.

(** *** resetAirplane *)
Definition resetAirplane (now : Z) (this : FlightSimulator) : FlightSimulator :=
  this |> set_airplane_position initialPosition
       |> set_airplane_rotation initialRotation
       |> set_speed 0
       |> set_pitch 0
       |> set_roll 0
       |> set_yaw 0
       |> set_health 100%Z
       |> set_isGameOver false
       |> set_startTime now.

(** *** shoot *)
Definition shoot (now : Z) (this : FlightSimulator) : FlightSimulator :=
  if isGameOver this then this
  else if (now - lastShot this <? shotCooldown)%Z then this
  else
    let this := set_lastShot now this in
    let direction := applyQuaternion (mkVector3 0 0 (-1)) (airplane_rotation this) in
    let bullet := mkBullet (airplane_position this) (multiplyScalar direction 12) in
    set_bullets (bullets this ++ [bullet]) this.

(** *** updateBullets *)

(** The inner loop, [for (j = balloons.length - 1; j >= 0; j--)], entered
    with [j + 1]: the index of the first balloon it finds closer than 6 to
    the bullet, if there is one. *)
Fixpoint balloonLoop (j1 : nat) (bulletPosition : Vector3) (bs : list Balloon)
  : option nat :=
  match j1 with
  | O => None
  | S j =>
      match bs !! j with
      | Some balloon =>
          if distance_lt bulletPosition (balloon_position balloon) 6 then Some j
          else balloonLoop j bulletPosition bs
      | None => balloonLoop j bulletPosition bs
      end
  end.

Definition advance (bullet : Bullet) : Bullet :=
  mkBullet (add (bullet_position bullet) (bullet_velocity bullet)) (bullet_velocity bullet).

(** The body of the [if (distance < 6)] for the balloon at index [j] and the
    bullet at index [i]; the [setTimeout] callback is kept with the balloon it
    captured. *)
Definition hit (i j : nat) (balloon : Balloon) (this : FlightSimulator) : FlightSimulator :=
  this |> set_balloons (delete j (balloons this))
       |> set_bullets (delete i (bullets this))
       |> set_score (score this + 100)%Z
       |> set_respawnTimers (respawnTimers this ++ [balloon]).

(** The outer loop, [for (i = bullets.length - 1; i >= 0; i--)], entered with
    [i + 1]. *)
Fixpoint bulletLoop (i1 : nat) (this : FlightSimulator) : FlightSimulator :=
  match i1 with
  | O => this
  | S i =>
      match bullets this !! i with
      | None => bulletLoop i this
      | Some bullet =>
          let bullet := advance bullet in
          let this := set_bullets (<[i := bullet]> (bullets this)) this in
          if length_gt (bullet_position bullet) 1000 then
            bulletLoop i (set_bullets (delete i (bullets this)) this)
          else
            match balloonLoop (length (balloons this)) (bullet_position bullet)
                    (balloons this) with
            | Some j =>
                match balloons this !! j with
                | Some balloon => bulletLoop i (hit i j balloon this)
                | None => bulletLoop i this
                end
            | None => bulletLoop i this
            end
      end
  end.

Definition updateBullets (this : FlightSimulator) : FlightSimulator :=
  bulletLoop (length (bullets this)) this.

(** The callback given to [setTimeout] in [updateBullets], run for the oldest
    pending timer: a clone of the balloon at a fresh position, with a fresh
    velocity in hard mode. *)
Definition respawn (r : Draws) (this : FlightSimulator) : FlightSimulator :=
  match respawnTimers this with
  | [] => this
  | balloon :: pending =>
      let position :=
        mkVector3 ((draw1 r - 0.5) * 1000) (50 + draw2 r * 200) ((draw3 r - 0.5) * 1000) in
      let velocity :=
        match difficulty this with
        | hard =>
            Some (mkVector3 ((draw4 r - 0.5) * 0.5)
                            (Math_sin (draw5 r * Math_PI * 2) * 0.2)
                            ((draw6 r - 0.5) * 0.5))
        | simple => userData_velocity balloon
        end in
      this |> set_respawnTimers pending
           |> set_balloons (balloons this ++ [mkBalloon position velocity])
  end.

(** *** updateBalloons *)
Definition moveBalloon (now : Z) (balloon : Balloon) : Balloon :=
  match userData_velocity balloon with
  | None => balloon
  | Some v =>
      let p := add (balloon_position balloon) v in
      let bounds := 500 in
      let vx := if Qltb bounds (Qabs (x p)) then x v * -1 else x v in
      let vy := if Qltb 75 (Qabs (y p - 125)) then y v * -1 else y v in
      let vz := if Qltb bounds (Qabs (z p)) then z v * -1 else z v in
      let vy := vy + Math_sin (inject_Z now * 0.001) * 0.01 in
      mkBalloon p (Some (mkVector3 vx vy vz))
  end.

Definition updateBalloons (now : Z) (this : FlightSimulator) : FlightSimulator :=
  match difficulty this with
  | hard => set_balloons (map (moveBalloon now) (balloons this)) this
  | simple => this
  end.

(** *** checkCollisions *)

(** The body of the [if (distance < collisionRadius + 10)]. *)
Definition collide (obstacle : Obstacle) (this : FlightSimulator) : FlightSimulator :=
  let this := set_health (health this - 20)%Z this in
  let this := if (health this <=? 0)%Z then gameOver this else this in
  let pushDirection :=
    multiplyScalar (normalize (sub (airplane_position this) (obstacle_position obstacle))) 20 in
  let this := set_airplane_position (add (airplane_position this) pushDirection) this in
  set_speed (speed this * 0.3) this.

(** [for (const obstacle of this.obstacles)], left at the first collision. *)
Fixpoint obstacleLoop (collisionRadius : Q) (obs : list Obstacle) (this : FlightSimulator)
  : FlightSimulator :=
  match obs with
  | [] => this
  | obstacle :: rest =>
      if distance_lt (airplane_position this) (obstacle_position obstacle)
           (collisionRadius + 10)
      then collide obstacle this
      else obstacleLoop collisionRadius rest this
  end.

Definition collisionRadius (this : FlightSimulator) : Q :=
  let airplaneSize := airplaneSize (airplane_rotation this) in
  Qmax (Qmax (x airplaneSize) (y airplaneSize)) (z airplaneSize) * 1.5.

Definition checkCollisions (this : FlightSimulator) : FlightSimulator :=
  if isGameOver this then this
  else obstacleLoop (collisionRadius this) (obstacles this) this.

(** *** updateFlight, in the order of its statements *)

(** Throttle input. *)
Definition throttle (this : FlightSimulator) : FlightSimulator :=
  if key "w" this then set_speed (Qmin (speed this + 0.05) maxSpeed) this
  else if key "s" this then set_speed (Qmax (speed this - 0.05) 0) this
  else this.

(** Minimum speed constraint. *)
Definition minSpeedConstraint (this : FlightSimulator) : FlightSimulator :=
  if Qltb 0 (speed this) && Qltb (speed this) minSpeed then set_speed minSpeed this
  else this.

(** Weather effect on speed. *)
Definition weatherEffect (this : FlightSimulator) : FlightSimulator :=
  if Qltb 0.5 (weatherIntensity this)
  then set_speed (speed this * (1 - weatherIntensity this * 0.01)) this
  else this.

Definition pitchInput (this : FlightSimulator) : FlightSimulator :=
  if key "ArrowUp" this then set_pitch (Qmin (pitch this + 0.02) (Math_PI / 3)) this
  else if key "ArrowDown" this then set_pitch (Qmax (pitch this - 0.02) (- Math_PI / 3)) this
  else this.

Definition rollInput (this : FlightSimulator) : FlightSimulator :=
  if key "ArrowLeft" this then
    this |> set_roll (Qmin (roll this + 0.02) (Math_PI / 3)) |> set_yaw (yaw this + 0.01)
  else if key "ArrowRight" this then
    this |> set_roll (Qmax (roll this - 0.02) (- Math_PI / 3)) |> set_yaw (yaw this - 0.01)
  else set_roll (roll this * 0.95) this.

(** [rotation.set(0, 0, 0)], then [rotateY(yaw)], [rotateX(pitch)],
    [rotateZ(roll)]. *)
Definition orient (this : FlightSimulator) : FlightSimulator :=
  set_airplane_rotation
    (rotateZ (rotateX (rotateY (Euler 0 0 0) (yaw this)) (pitch this)) (roll this)) this.

(** The direction of flight with lift and weather perturbation, added to the
    position after scaling by the speed. *)
Definition move (f : Frame) (this : FlightSimulator) : FlightSimulator :=
  let direction := applyQuaternion (mkVector3 0 0 (-1)) (airplane_rotation this) in
  let lift := Qmax 0 (speed this * 0.02) in
  let direction := mkVector3 (x direction) (y direction + lift) (z direction) in
  let direction :=
    if Qltb 0.5 (weatherIntensity this) then
      mkVector3 (x direction + (random_x f - 0.5) * 0.1 * weatherIntensity this)
                (y direction + (random_y f - 0.5) * 0.1 * weatherIntensity this)
                (z direction)
    else direction in
  set_airplane_position
    (add (airplane_position this) (multiplyScalar direction (speed this))) this.

(** The ground, from [this.altitude = this.airplane.position.y] on. *)
Definition hardLanding (this : FlightSimulator) : FlightSimulator :=
  let this := set_health (health this - 10)%Z this in
  if (health this <=? 0)%Z then gameOver this else this.

Definition ground (this : FlightSimulator) : FlightSimulator :=
  let this := set_altitude (y (airplane_position this)) this in
  if Qltb (altitude this) 0.5 then
    let p := airplane_position this in
    let this := set_airplane_position (mkVector3 (x p) 0.5 (z p)) this in
    let this := set_speed (Qmax 0 (speed this - 0.1)) this in
    if Qltb 1 (speed this) then hardLanding this else this
  else this.

(** The statements of [updateFlight] up to the update of the position. *)
Definition beforeGround (f : Frame) (this : FlightSimulator) : FlightSimulator :=
  this |> throttle |> minSpeedConstraint |> weatherEffect
       |> pitchInput |> rollInput |> orient |> move f.

Definition updateFlight (f : Frame) (this : FlightSimulator) : FlightSimulator :=
  if isGameOver this then this
  else
    beforeGround f this
      |> ground |> checkCollisions |> updateWeather (clock_weather f) |> updateBullets.

(** *** animate *)
Definition animate (f : Frame) (this : FlightSimulator) : FlightSimulator :=
  let this := updateFlight f this in
  let this := updateBalloons (clock_balloons f) this in
  let this := updateTimer (clock_timer f) this in
  if isShooting this then shoot (clock_shoot f) this else this.

(** *** The listeners of the constructor *)
Definition keydown (k : string) (now : Z) (this : FlightSimulator) : FlightSimulator :=
  let this := set_keys (<[k := true]> (keys this)) this in
  let this := if String.eqb k " " then set_isShooting true this else this in
  if String.eqb k "r" || String.eqb k "R" then resetAirplane now this else this.

Definition keyup (k : string) (this : FlightSimulator) : FlightSimulator :=
  let this := set_keys (<[k := false]> (keys this)) this in
  if String.eqb k " " then set_isShooting false this else this.

(** ** The simulator as a transition system *)

(** The state after the constructor and [init()]: the balloons and obstacles
    are the ones the constructor made, the clock reading is the constructor's. *)
Definition initialState (d : Difficulty) (bs : list Balloon) (obs : list Obstacle)
    (now : Z) : FlightSimulator :=
  {| airplane_position := initialPosition;
     airplane_rotation := initialRotation;
     speed := 0; pitch := 0; roll := 0; yaw := 0; altitude := 0;
     keys := ∅; bullets := []; balloons := bs; obstacles := obs;
     score := 0; lastShot := 0; health := 100; isGameOver := false;
     weatherIntensity := 0.5;
     startTime := now; elapsedTime := 0; isShooting := false;
     difficulty := d; respawnTimers := [] |}.

(** What the browser calls: the animation frame, the weather interval of
    100 ms, the key listeners, the callback of [MobileControls] and the
    timeout of a respawn. *)
Inductive Event : Type :=
| AnimationFrame (f : Frame)
| WeatherInterval (now : Z)
| KeyDown (k : string) (now : Z)
| KeyUp (k : string)
| MobileInput (controls : Controls)
| RespawnTimeout (r : Draws).

Definition handle (e : Event) (this : FlightSimulator) : FlightSimulator :=
  match e with
  | AnimationFrame f => animate f this
  | WeatherInterval now => updateWeather now this
  | KeyDown k now => keydown k now this
  | KeyUp k => keyup k this
  | MobileInput controls => handleMobileControls controls this
  | RespawnTimeout r => respawn r this
  end.

Definition run (es : list Event) (this : FlightSimulator) : FlightSimulator :=
  fold_left (fun s e => handle e s) es this.

(** The states of a game: any start, followed by any events in any order
    and at any instants, so that every state a game can be in is among them. *)
Inductive reachable : FlightSimulator -> Prop :=
| reachable_init d bs obs now : reachable (initialState d bs obs now)
| reachable_step e this : reachable this -> reachable (handle e this).

(** * Notions used by the properties *)

(** ** What happens in a frame *)

(** The test [this.altitude < 0.5] of the ground contact. *)
Definition belowFloor (this : FlightSimulator) : bool :=
  Qltb (y (airplane_position this)) 0.5.

(** Some obstacle of the list is within the collision distance of the
    aircraft. *)
Definition inCollision (this : FlightSimulator) : bool :=
  existsb (fun o => distance_lt (airplane_position this) (obstacle_position o)
                      (collisionRadius this + 10)) (obstacles this).

(** ** Ranges *)


Definition intensityInRange (this : FlightSimulator) : Prop :=
  0 <= weatherIntensity this <= 1.

(** ** Views of the state *)

(** The fields the game logic depends on besides the scene objects. *)
Definition vitals (this : FlightSimulator) : Q * Z * bool * Q * gmap string bool :=
  (speed this, health this, isGameOver this, weatherIntensity this, keys this).

(** The same without the speed, for the steps that only write the speed. *)
Definition status (this : FlightSimulator) : Z * bool * Q * gmap string bool :=
  (health this, isGameOver this, weatherIntensity this, keys this).

(** ** Health *)


(** ** Throttle held from rest *)





(** ** The pass over the bullets *)

(** A balloon is closer than 6 to the point. *)
Definition near (p : Vector3) (balloon : Balloon) : bool :=
  distance_lt p (balloon_position balloon) 6.

(** The bullet is not farther than 1000 from the origin of the world. *)
Definition inRange (bullet : Bullet) : bool :=
  negb (length_gt (bullet_position bullet) 1000).

(** What the pass changes besides the bullets. *)
Record Combat := mkCombat {
  targets : list Balloon;
  points : Z;
  timers : list Balloon
}.

Definition combat (this : FlightSimulator) : Combat :=
  mkCombat (balloons this) (score this) (respawnTimers this).

Definition settle (bs : list Bullet) (w : Combat) (this : FlightSimulator)
  : FlightSimulator :=
  this |> set_bullets bs |> set_balloons (targets w) |> set_score (points w)
       |> set_respawnTimers (timers w).

(** One iteration of the outer loop as a function of the bullet: what is
    left of the bullet, and the balloons, score and timers after it. *)
Definition strike (bullet : Bullet) (w : Combat) : list Bullet * Combat :=
  let bullet := advance bullet in
  if length_gt (bullet_position bullet) 1000 then ([], w)
  else
    match balloonLoop (length (targets w)) (bullet_position bullet) (targets w) with
    | Some j =>
        match targets w !! j with
        | Some balloon =>
            ([], mkCombat (delete j (targets w)) (points w + 100)%Z (timers w ++ [balloon]))
        | None => ([bullet], w)
        end
    | None => ([bullet], w)
    end.

(** The same pass as a recursion on the list of bullets: the loop runs from
    the last bullet to the first, so the tail is swept before the head. *)
Fixpoint sweep (l : list Bullet) (w : Combat) : list Bullet * Combat :=
  match l with
  | [] => ([], w)
  | bullet :: rest =>
      let '(rest', w) := sweep rest w in
      let '(kept, w) := strike bullet w in
      (kept ++ rest', w)
  end.

(** The three outcomes of one iteration. *)
Inductive Outcome (bullet : Bullet) (w : Combat) : list Bullet * Combat -> Prop :=
| outOfRange :
    inRange (advance bullet) = false ->
    Outcome bullet w ([], w)
| struck j balloon :
    inRange (advance bullet) = true ->
    targets w !! j = Some balloon ->
    near (bullet_position (advance bullet)) balloon = true ->
    (forall k t, (j < k)%nat -> targets w !! k = Some t ->
                 near (bullet_position (advance bullet)) t = false) ->
    Outcome bullet w
      ([], mkCombat (delete j (targets w)) (points w + 100)%Z (timers w ++ [balloon]))
| flies :
    inRange (advance bullet) = true ->
    (forall t, t ∈ targets w -> near (bullet_position (advance bullet)) t = false) ->
    Outcome bullet w ([advance bullet], w).

(** * Notions used by the further properties *)

(** The bullets, the balloons, the score and the pending respawns. *)
Definition scene (this : FlightSimulator)
  : list Bullet * list Balloon * Z * list Balloon :=
  (bullets this, balloons this, score this, respawnTimers this).

(** The angles of the aircraft. *)
Definition attitude (this : FlightSimulator) : Q * Q * Q :=
  (pitch this, roll this, yaw this).

(** The balloons in the scene together with those waiting for their respawn. *)
Definition pool (this : FlightSimulator) : nat :=
  (length (balloons this) + length (respawnTimers this))%nat.

(** The key events that run [resetAirplane]. *)
Definition isReset (e : Event) : bool :=
  match e with
  | KeyDown k _ => String.eqb k "r" || String.eqb k "R"
  | _ => false
  end.


(** The callback of [MobileControls] passes joystick coordinates, which are
    between -1 and 1. *)
Definition unitInput (e : Event) : Prop :=
  match e with
  | MobileInput controls =>
      -1 <= c_pitch controls <= 1 /\ -1 <= c_roll controls <= 1
  | _ => True
  end.

(** *** spawnBalloons *)

(** One iteration of the loop of [spawnBalloons] when [n] calls of
    [Math.random()] have been made, [random k] being the draw of the call
    number [k]: the first draw picks the colour, the next three the position
    and, in hard mode, three more the velocity.  The balloon, and the number
    of calls made after it. *)
Definition spawnBalloon (d : Difficulty) (random : nat -> Q) (n : nat) : Balloon * nat :=
  let position :=
    mkVector3 ((random (n + 1)%nat - 0.5) * 1000) (50 + random (n + 2)%nat * 200)
              ((random (n + 3)%nat - 0.5) * 1000) in
  match d with
  | hard =>
      (mkBalloon position
         (Some (mkVector3 ((random (n + 4)%nat - 0.5) * 0.5)
                          (Math_sin (random (n + 5)%nat * Math_PI * 2) * 0.2)
                          ((random (n + 6)%nat - 0.5) * 0.5))),
       (n + 7)%nat)
  | simple => (mkBalloon position None, (n + 4)%nat)
  end.

(** [for (let i = 0; i < 20; i++)], entered with the iterations left. *)
Fixpoint spawnLoop (todo : nat) (d : Difficulty) (random : nat -> Q) (n : nat)
    (bs : list Balloon) : list Balloon * nat :=
  match todo with
  | O => (bs, n)
  | S todo =>
      let '(balloon, n) := spawnBalloon d random n in
      spawnLoop todo d random n (bs ++ [balloon])
  end.

Definition spawnBalloons (d : Difficulty) (random : nat -> Q) (n : nat)
  : list Balloon * nat :=
  spawnLoop 20 d random n [].

(** The box the positions are drawn from. *)
Definition inBox (p : Vector3) : Prop :=
  -500 <= x p < 500 /\ 50 <= y p < 250 /\ -500 <= z p < 500.

(** A draw of [Math.random()]. *)
Definition isDraw (q : Q) : Prop := 0 <= q < 1.

Definition fairDraws (r : Draws) : Prop :=
  isDraw (draw1 r) /\ isDraw (draw2 r) /\ isDraw (draw3 r) /\
  isDraw (draw4 r) /\ isDraw (draw5 r) /\ isDraw (draw6 r).


(** *** The patrol of a balloon *)



(** A balloon as [spawnBalloons] makes it in the mode [d]. *)
Definition spawned (d : Difficulty) (balloon : Balloon) : Prop :=
  inBox (balloon_position balloon) /\
  match d with
  | simple => userData_velocity balloon = None
  | hard =>
      exists v, userData_velocity balloon = Some v /\
                Qabs (x v) <= 0.25 /\ Qabs (z v) <= 0.25
  end.


End Simulator.

(** ** The timer text *)

(** [a % b] on numbers: what is left of [a] after the multiples of [b], with
    the quotient rounded towards zero. *)
Definition Qtruncate (q : Q) : Z := if Qle_bool 0 q then Qfloor q else Qceiling q.

Definition remainder (a b : Q) : Q := a - b * inject_Z (Qtruncate (a / b)).

(** The minutes and seconds [updateTimer] writes, before the padding to two
    digits. *)
Definition timerMinutes (elapsed : Q) : Z := Qfloor (elapsed / 60).

Definition timerSeconds (elapsed : Q) : Z := Qfloor (remainder elapsed 60).

(** ** MobileControls *)

Module MobileControls.

Record t := mk {
  currentPitch : Q;
  currentRoll : Q;
  currentThrottle : Q;
  isShooting : bool
}.

(** The fields after the constructor. *)
Definition create : t := mk 0 0 0 false.

(** [data.vector] of a joystick event; a coordinate can be missing. *)
Record JoystickVector := mkVector { vector_x : option Q; vector_y : option Q }.

(** [v || 0]. *)
Definition orZero (v : option Q) : Q :=
  match v with
  | Some q => q
  | None => 0
  end.

(** What [getBoundingClientRect()] gives for a joystick zone. *)
Record DOMRect := mkRect { rect_left : Q; rect_right : Q; rect_top : Q; rect_bottom : Q }.

Definition isTouchOnJoystick (px py : Q) (rect : DOMRect) : bool :=
  Qle_bool (rect_left rect) px && Qle_bool px (rect_right rect)
  && Qle_bool (rect_top rect) py && Qle_bool py (rect_bottom rect).

(** [updateControls]: the record passed to [onControlsUpdate]. *)
Definition updateControls (m : t) : Controls :=
  mkControls (currentPitch m) (currentRoll m)
    (Qltb 0.3 (currentThrottle m)) (Qltb (currentThrottle m) (-0.3)) (isShooting m).

(** The listeners [createControls] installs. *)
Inductive Input : Type :=
| LeftMove (v : JoystickVector)
| LeftEnd
| RightMove (v : JoystickVector)
| RightEnd
| TouchStart (touchX touchY : Q) (leftZone rightZone : DOMRect)
| TouchEnd.

(** A listener: the fields after it and the record it passes to
    [onControlsUpdate], when it calls [updateControls]. *)
Definition listen (i : Input) (m : t) : t * option Controls :=
  match i with
  | LeftMove v =>
      let m := mk (- orZero (vector_y v)) (- orZero (vector_x v))
                 (currentThrottle m) (isShooting m) in
      (m, Some (updateControls m))
  | LeftEnd =>
      let m := mk 0 0 (currentThrottle m) (isShooting m) in
      (m, Some (updateControls m))
  | RightMove v =>
      let m := mk (currentPitch m) (currentRoll m) (- orZero (vector_y v)) (isShooting m) in
      (m, Some (updateControls m))
  | RightEnd =>
      let m := mk (currentPitch m) (currentRoll m) 0 (isShooting m) in
      (m, Some (updateControls m))
  | TouchStart touchX touchY leftZone rightZone =>
      if negb (isTouchOnJoystick touchX touchY leftZone)
         && negb (isTouchOnJoystick touchX touchY rightZone)
      then
        let m := mk (currentPitch m) (currentRoll m) (currentThrottle m) true in
        (m, Some (updateControls m))
      else (m, None)
  | TouchEnd =>
      let m := mk (currentPitch m) (currentRoll m) (currentThrottle m) false in
      (m, Some (updateControls m))
  end.

(** The records passed to [onControlsUpdate] along a list of inputs. *)
Fixpoint callbacks (inputs : list Input) (m : t) : list Controls :=
  match inputs with
  | [] => []
  | i :: inputs =>
      match listen i m with
      | (m, Some controls) => controls :: callbacks inputs m
      | (m, None) => callbacks inputs m
      end
  end.

(** The coordinates of a joystick are between -1 and 1. *)
Definition unitVector (v : JoystickVector) : Prop :=
  -1 <= orZero (vector_x v) <= 1 /\ -1 <= orZero (vector_y v) <= 1.

Definition unitInput (i : Input) : Prop :=
  match i with
  | LeftMove v | RightMove v => unitVector v
  | _ => True
  end.

(** The simulator with its mobile controls: a listener followed by
    [handleMobileControls], the callback the constructor of [FlightSimulator]
    passes. *)
Definition handle (i : Input) (s : t * FlightSimulator) : t * FlightSimulator :=
  match listen i (fst s) with
  | (m, Some controls) => (m, handleMobileControls controls (snd s))
  | (m, None) => (m, snd s)
  end.

End MobileControls.

(** ** Sample values of what is outside the class *)

Module Sample.

(** The Maclaurin polynomial of the sine up to the seventh power, kept
    between -1 and 1; within 0.000003 of the sine for arguments between -1
    and 1. *)
Definition sin (q : Q) : Q :=
  Qmax (-1) (Qmin 1 (q - q * q * q / 6 + q * q * q * q * q / 120
                     - q * q * q * q * q * q * q / 5040)).

(** The rotation of a vector by an orientation whose angles are all zero. *)
Definition applyQuaternion (v : Vector3) (o : Orientation) : Vector3 := v.

(** The bounding box of the aircraft when its angles are all zero. *)
Definition airplaneSize (o : Orientation) : Vector3 := mkVector3 3.535 0.91 0.7.

(** Division by the sum of the absolute values of the coordinates, which is
    the length for a vector along an axis. *)
Definition normalize (v : Vector3) : Vector3 :=
  let n := Qabs (x v) + Qabs (y v) + Qabs (z v) in
  if Qeq_bool n 0 then v else mkVector3 (x v / n) (y v / n) (z v / n).

(** The eight obstacles of [createObstacles], to two decimals. *)
Definition obstacles : list Obstacle :=
  map mkObstacle
    [ mkVector3 200 100 0; mkVector3 141.42 150 141.42; mkVector3 0 100 200;
      mkVector3 (-141.42) 50 141.42; mkVector3 (-200) 100 0;
      mkVector3 (-141.42) 150 (-141.42); mkVector3 0 100 (-200);
      mkVector3 141.42 50 (-141.42) ].

(** Twenty balloons inside the box [spawnBalloons] draws from. *)
Definition balloons (d : Difficulty) : list Balloon :=
  map (fun i : Z =>
         mkBalloon (mkVector3 (inject_Z (40 * i - 400)) (inject_Z (60 + 9 * i))
                              (inject_Z (300 - 35 * i)))
                   (match d with
                    | hard => Some (mkVector3 0.2 0.1 (-0.2))
                    | simple => None
                    end))
      (seqZ 0 20).

Definition externals : Externals :=
  Build_Externals sin applyQuaternion airplaneSize normalize.

Definition start (d : Difficulty) : FlightSimulator :=
  initialState d (balloons d) obstacles 0.

(** A frame at the instant [now] whose draws of [Math.random()] are 0.5. *)
Definition frame (now : Z) : Frame := mkFrame now now now now 0.5 0.5.





(** An aircraft that [updateFlight] has moved below the floor, to the altitude
    0.3, at the speed [v]. *)
Definition landing (v : Q) : FlightSimulator :=
  start simple |> set_speed v |> set_airplane_position (mkVector3 0 0.3 0).

(** A game that is over in hard mode: the health is spent and the balloons
    have their velocities. *)
Definition wrecked : FlightSimulator :=
  start hard |> set_health 0%Z |> set_isGameOver true.


(** One bullet about to arrive at (0, 100, 0), where two of the three
    balloons are closer than 6. *)
Definition crossfire : FlightSimulator :=
  start simple
    |> set_balloons [ mkBalloon (mkVector3 0 103 0) None;
                      mkBalloon (mkVector3 0 101 0) None;
                      mkBalloon (mkVector3 100 200 100) None ]
    |> set_bullets [ mkBullet (mkVector3 0 100 12) (mkVector3 0 0 (-12)) ].

(** The brake key is down on an aircraft flying level at the speed [v]. *)
Definition braking (v : Q) : FlightSimulator :=
  handle (ext := externals) (KeyDown "s" 0)
    (start simple |> set_speed v |> set_airplane_position (mkVector3 0 60 0)).

(** The left arrow is down on an aircraft flying level. *)
Definition banking : FlightSimulator :=
  handle (ext := externals) (KeyDown "ArrowLeft" 0)
    (start simple |> set_speed 1 |> set_airplane_position (mkVector3 0 60 0)).

(** Draws of [Math.random()]: the eighths, in turn. *)
Definition random (k : nat) : Q := Z.of_nat (k mod 8) # 8.

(** The six draws of a respawn. *)
Definition draws : Draws := mkDraws 0.125 0.25 0.375 0.5 0.625 0.75.

(** A session on a touch screen: the left joystick is pushed and released, the
    right joystick is pushed up, the screen is touched outside the zones. *)
Definition touches : list MobileControls.Input :=
  [ MobileControls.LeftMove (MobileControls.mkVector (Some 0.5) (Some (-1)));
    MobileControls.LeftEnd;
    MobileControls.RightMove (MobileControls.mkVector None (Some (-0.8)));
    MobileControls.TouchStart 400 300
      (MobileControls.mkRect 40 160 500 620) (MobileControls.mkRect 640 760 500 620);
    MobileControls.TouchEnd ].

(** An aircraft 5 away from the first obstacle along x, in full health. *)
Definition grazing : FlightSimulator :=
  start simple |> set_speed 1 |> set_airplane_position (mkVector3 195 100 0).

End Sample.


(** * Properties *)

Section Properties.

Context {ext : Externals}.

(** ** Basic facts *)

Lemma Qltb_true (a b : Q) : Qltb a b = true <-> a < b.
Proof.
  unfold Qltb. rewrite negb_true_iff, <- not_true_iff_false, Qle_bool_iff.
  split; intros; lra.
Qed.

Lemma Qltb_false (a b : Q) : Qltb a b = false <-> b <= a.
Proof.
  unfold Qltb. rewrite negb_false_iff, Qle_bool_iff. reflexivity.
Qed.

Lemma Qmin_cases (a b : Q) : (a <= b /\ Qmin a b == a) \/ (b <= a /\ Qmin a b == b).
Proof. destruct (Q.min_spec a b) as [[? ?]|[? ?]]; [left | right]; split; lra. Qed.

Lemma Qmax_cases (a b : Q) : (b <= a /\ Qmax a b == a) \/ (a <= b /\ Qmax a b == b).
Proof. destruct (Q.max_spec a b) as [[? ?]|[? ?]]; [right | left]; split; lra. Qed.

(** ** The speed within [updateFlight] *)




(** ** Fields a step leaves alone *)

(** Closes a goal that compares fields of [g this] and of [this] when [g] does not
    write them. *)
Tactic Notation "fields" reference(g) :=
  intros; unfold g; repeat case_match; reflexivity.

Lemma pitchInput_vitals this : vitals (pitchInput this) = vitals this.
Proof. fields pitchInput. Qed.

Lemma rollInput_vitals this : vitals (rollInput this) = vitals this.
Proof. fields rollInput. Qed.

Lemma orient_vitals this : vitals (orient this) = vitals this.
Proof. fields orient. Qed.

Lemma move_vitals f this : vitals (move f this) = vitals this.
Proof. fields move. Qed.

Lemma updateBalloons_vitals now this : vitals (updateBalloons now this) = vitals this.
Proof. fields updateBalloons. Qed.

Lemma updateTimer_vitals now this : vitals (updateTimer now this) = vitals this.
Proof. fields updateTimer. Qed.

Lemma shoot_vitals now this : vitals (shoot now this) = vitals this.
Proof. fields shoot. Qed.

Lemma respawn_vitals r this : vitals (respawn r this) = vitals this.
Proof. fields respawn. Qed.

Lemma bulletLoop_vitals i : forall this, vitals (bulletLoop i this) = vitals this.
Proof.
  induction i as [|i IH]; intros this; simpl; [reflexivity|].
  repeat case_match; rewrite IH; reflexivity.
Qed.

Lemma updateBullets_vitals this : vitals (updateBullets this) = vitals this.
Proof. apply bulletLoop_vitals. Qed.

Lemma vitals_eq a b :
  vitals a = vitals b ->
  speed a = speed b /\ health a = health b /\ isGameOver a = isGameOver b /\
  weatherIntensity a = weatherIntensity b /\ keys a = keys b.
Proof. unfold vitals. intros H. injection H. auto. Qed.

Lemma throttle_status this : status (throttle this) = status this.
Proof. fields throttle. Qed.

Lemma minSpeedConstraint_status this : status (minSpeedConstraint this) = status this.
Proof. fields minSpeedConstraint. Qed.

Lemma weatherEffect_status this : status (weatherEffect this) = status this.
Proof. fields weatherEffect. Qed.

Lemma status_eq a b :
  status a = status b ->
  health a = health b /\ isGameOver a = isGameOver b /\
  weatherIntensity a = weatherIntensity b /\ keys a = keys b.
Proof. unfold status. intros H. injection H. auto. Qed.

Lemma vitals_status a b : vitals a = vitals b -> status a = status b.
Proof. unfold vitals, status. intros H. injection H. intros. congruence. Qed.

Lemma beforeGround_status f this : status (beforeGround f this) = status this.
Proof.
  unfold beforeGround.
  rewrite (vitals_status _ _ (move_vitals _ _)), (vitals_status _ _ (orient_vitals _)),
    (vitals_status _ _ (rollInput_vitals _)), (vitals_status _ _ (pitchInput_vitals _)),
    weatherEffect_status, minSpeedConstraint_status, throttle_status.
  reflexivity.
Qed.

Lemma beforeGround_speed_eq f this :
  speed (beforeGround f this) = speed (weatherEffect (minSpeedConstraint (throttle this))).
Proof.
  unfold beforeGround.
  destruct (vitals_eq _ _ (move_vitals f
    (orient (rollInput (pitchInput (weatherEffect (minSpeedConstraint (throttle this))))))))
    as (-> & _).
  destruct (vitals_eq _ _ (orient_vitals
    (rollInput (pitchInput (weatherEffect (minSpeedConstraint (throttle this)))))))
    as (-> & _).
  destruct (vitals_eq _ _ (rollInput_vitals
    (pitchInput (weatherEffect (minSpeedConstraint (throttle this)))))) as (-> & _).
  destruct (vitals_eq _ _ (pitchInput_vitals
    (weatherEffect (minSpeedConstraint (throttle this))))) as (-> & _).
  reflexivity.
Qed.


(** ** The ground *)

Lemma ground_ambient this :
  weatherIntensity (ground this) = weatherIntensity this /\ keys (ground this) = keys this.
Proof. unfold ground, hardLanding, gameOver. repeat case_match; auto. Qed.


(** ** Collisions *)

Lemma collide_ambient o this :
  weatherIntensity (collide o this) = weatherIntensity this /\
  keys (collide o this) = keys this.
Proof. unfold collide, gameOver. repeat case_match; auto. Qed.

Lemma obstacleLoop_cases r obs this :
  obstacleLoop r obs this = this \/ exists o, obstacleLoop r obs this = collide o this.
Proof.
  induction obs as [|o obs IH]; simpl; [left; reflexivity|].
  case_match; [right; eauto | exact IH].
Qed.

Lemma checkCollisions_cases this :
  checkCollisions this = this \/
  (isGameOver this = false /\ exists o, checkCollisions this = collide o this).
Proof.
  unfold checkCollisions. destruct (isGameOver this); [left; reflexivity|].
  destruct (obstacleLoop_cases (collisionRadius this) (obstacles this) this)
    as [E|[o E]]; [left | right; split; eauto]; exact E.
Qed.

Lemma checkCollisions_ambient this :
  weatherIntensity (checkCollisions this) = weatherIntensity this /\
  keys (checkCollisions this) = keys this.
Proof.
  destruct (checkCollisions_cases this) as [->|(_ & o & ->)]; [auto|].
  apply collide_ambient.
Qed.



(** ** The weather tick *)

Lemma clamp01 (q : Q) : 0 <= Qmax 0 (Qmin 1 q) <= 1.
Proof.
  pose proof (Qmin_cases 1 q). pose proof (Qmax_cases 0 (Qmin 1 q)). lra.
Qed.

Lemma updateWeather_intensity now this :
  weatherIntensity (updateWeather now this) = Qmax 0 (Qmin 1 (targetIntensity now)).
Proof. reflexivity. Qed.

Lemma updateWeather_rest now this :
  speed (updateWeather now this) = speed this /\
  health (updateWeather now this) = health this /\
  isGameOver (updateWeather now this) = isGameOver this /\
  keys (updateWeather now this) = keys this.
Proof. auto. Qed.

(** ** A whole frame *)

Lemma updateFlight_intensity f this :
  weatherIntensity (updateFlight f this) =
  if isGameOver this then weatherIntensity this
  else Qmax 0 (Qmin 1 (targetIntensity (clock_weather f))).
Proof.
  unfold updateFlight. destruct (isGameOver this); [reflexivity|].
  destruct (vitals_eq _ _ (updateBullets_vitals
    (updateWeather (clock_weather f) (checkCollisions (ground (beforeGround f this))))))
    as (_ & _ & _ & -> & _).
  reflexivity.
Qed.

Lemma updateFlight_keys f this : keys (updateFlight f this) = keys this.
Proof.
  unfold updateFlight. destruct (isGameOver this); [reflexivity|].
  destruct (vitals_eq _ _ (updateBullets_vitals
    (updateWeather (clock_weather f) (checkCollisions (ground (beforeGround f this))))))
    as (_ & _ & _ & _ & ->).
  destruct (updateWeather_rest (clock_weather f)
    (checkCollisions (ground (beforeGround f this)))) as (_ & _ & _ & ->).
  destruct (checkCollisions_ambient (ground (beforeGround f this))) as [_ ->].
  destruct (ground_ambient (beforeGround f this)) as [_ ->].
  destruct (status_eq _ _ (beforeGround_status f this)) as (_ & _ & _ & ->).
  reflexivity.
Qed.

(** The speed and health at the end of a frame are those [checkCollisions]
    leaves. *)
Lemma updateFlight_vitals f this :
  isGameOver this = false ->
  let s := checkCollisions (ground (beforeGround f this)) in
  speed (updateFlight f this) = speed s /\
  health (updateFlight f this) = health s /\
  isGameOver (updateFlight f this) = isGameOver s.
Proof.
  intros Hg. unfold updateFlight. rewrite Hg.
  destruct (vitals_eq _ _ (updateBullets_vitals
    (updateWeather (clock_weather f) (checkCollisions (ground (beforeGround f this))))))
    as (-> & -> & -> & _ & _).
  destruct (updateWeather_rest (clock_weather f)
    (checkCollisions (ground (beforeGround f this)))) as (-> & -> & -> & _).
  auto.
Qed.


Lemma updateFlight_intensityInRange f this :
  intensityInRange this -> intensityInRange (updateFlight f this).
Proof.
  intros Hi. unfold intensityInRange. rewrite updateFlight_intensity.
  destruct (isGameOver this); [exact Hi | apply clamp01].
Qed.

(** After [updateFlight], [animate] leaves the vitals alone. *)
Lemma animate_vitals f this : vitals (animate f this) = vitals (updateFlight f this).
Proof.
  unfold animate.
  transitivity (vitals (updateTimer (clock_timer f)
                          (updateBalloons (clock_balloons f) (updateFlight f this)))).
  - case_match; [apply shoot_vitals | reflexivity].
  - rewrite updateTimer_vitals. apply updateBalloons_vitals.
Qed.

(** ** The other handlers *)


Lemma handleMobileControls_status controls this :
  status (handleMobileControls controls this) = status this.
Proof. fields handleMobileControls. Qed.


Lemma keydown_intensity k now this :
  weatherIntensity (keydown k now this) = weatherIntensity this.
Proof. fields keydown. Qed.

Lemma keyup_vitals k this :
  speed (keyup k this) = speed this /\ health (keyup k this) = health this /\
  isGameOver (keyup k this) = isGameOver this /\
  weatherIntensity (keyup k this) = weatherIntensity this.
Proof. unfold keyup. repeat case_match; auto. Qed.

(** Every handler leaves the weather intensity alone or sets it to the
    clamped target of some instant. *)
Lemma handle_intensity e this :
  weatherIntensity (handle e this) = weatherIntensity this \/
  exists now, weatherIntensity (handle e this) = Qmax 0 (Qmin 1 (targetIntensity now)).
Proof.
  destruct e as [f|now|k now|k|controls|r]; simpl.
  - destruct (vitals_eq _ _ (animate_vitals f this)) as (_ & _ & _ & -> & _).
    rewrite updateFlight_intensity. destruct (isGameOver this); eauto.
  - eauto.
  - left. apply keydown_intensity.
  - left. apply keyup_vitals.
  - left. apply (status_eq _ _ (handleMobileControls_status controls this)).
  - left. apply (vitals_eq _ _ (respawn_vitals r this)).
Qed.




(** ** Health through the handlers *)










(** ** Frames without ground contact or collision *)

Lemma obstacleLoop_miss r obs this :
  existsb (fun o => distance_lt (airplane_position this) (obstacle_position o) (r + 10)) obs
    = false ->
  obstacleLoop r obs this = this.
Proof.
  induction obs as [|o obs IH]; simpl; [reflexivity|].
  intros H. apply orb_false_iff in H as [-> H]. apply IH, H.
Qed.

Lemma checkCollisions_miss this : inCollision this = false -> checkCollisions this = this.
Proof.
  unfold checkCollisions, inCollision. intros H.
  destruct (isGameOver this); [reflexivity|]. apply obstacleLoop_miss, H.
Qed.

Lemma set_altitude_vitals a this :
  speed (set_altitude a this) = speed this /\
  health (set_altitude a this) = health this /\
  isGameOver (set_altitude a this) = isGameOver this.
Proof. auto. Qed.

Lemma ground_miss this :
  belowFloor this = false ->
  ground this = set_altitude (y (airplane_position this)) this.
Proof. unfold ground, belowFloor. simpl. intros ->. reflexivity. Qed.

Lemma quiet_frame f this :
  isGameOver this = false ->
  belowFloor (beforeGround f this) = false ->
  inCollision (ground (beforeGround f this)) = false ->
  speed (updateFlight f this) = speed (weatherEffect (minSpeedConstraint (throttle this))) /\
  health (updateFlight f this) = health this /\
  isGameOver (updateFlight f this) = false.
Proof.
  intros Hg Ht Hc.
  destruct (updateFlight_vitals f this Hg) as (-> & -> & ->).
  rewrite (checkCollisions_miss _ Hc), (ground_miss _ Ht).
  destruct (set_altitude_vitals (y (airplane_position (beforeGround f this)))
              (beforeGround f this)) as (-> & -> & ->).
  rewrite beforeGround_speed_eq.
  destruct (status_eq _ _ (beforeGround_status f this)) as (-> & -> & _).
  auto.
Qed.


Lemma weatherEffect_fair this :
  weatherIntensity this <= 0.5 -> weatherEffect this = this.
Proof.
  unfold weatherEffect. intros H. apply Qltb_false in H. rewrite H. reflexivity.
Qed.

(** ** A collision at any health *)

Lemma obstacleLoop_hit r obs this :
  existsb (fun o => distance_lt (airplane_position this) (obstacle_position o) (r + 10)) obs
    = true ->
  exists o, obstacleLoop r obs this = collide o this.
Proof.
  induction obs as [|o obs IH]; simpl; [discriminate|].
  destruct (distance_lt (airplane_position this) (obstacle_position o) (r + 10)).
  - intros _. exists o. reflexivity.
  - simpl. exact IH.
Qed.

Lemma collide_takes_twenty o this : health (collide o this) = (health this - 20)%Z.
Proof. unfold collide, gameOver. cbn [health set_health]. case_match; reflexivity. Qed.

(** Whatever the health before it, a collision in a frame off the ground takes
    20 from it. *)
Lemma collision_in_flight f this :
  isGameOver this = false ->
  belowFloor (beforeGround f this) = false ->
  inCollision (ground (beforeGround f this)) = true ->
  health (updateFlight f this) = (health this - 20)%Z.
Proof.
  intros Hg Ht Hc.
  destruct (updateFlight_vitals f this Hg) as (_ & -> & _).
  destruct (status_eq _ _ (beforeGround_status f this)) as (Hh & Ho & _).
  rewrite (ground_miss _ Ht) in *.
  revert Hc Hh Ho. generalize (beforeGround f this). intros s Hc Hh Ho.
  unfold checkCollisions. cbn [isGameOver set_altitude]. rewrite Ho, Hg.
  destruct (obstacleLoop_hit _ _ _ Hc) as [o Ho'].
  unfold inCollision in Hc. cbn [obstacles set_altitude] in *.
  rewrite Ho', collide_takes_twenty. cbn [health set_altitude]. rewrite Hh. reflexivity.
Qed.

(** ** Speed *)


(** ** Health *)


(** ** Ground contact *)

(** C5 (amended).  On ground contact the altitude is clamped to 0.5 and the
    speed decreases by 0.1, not below 0.  The health penalty of 10 is applied
    if and only if the speed after that decrease exceeds 1, that is when the
    speed before it exceeds 1.1; when the penalty brings health to zero or
    below, the game is over. *)
Theorem ground_contact this :
  y (airplane_position this) < 0.5 ->
  let s := ground this in
  airplane_position s =
    mkVector3 (x (airplane_position this)) 0.5 (z (airplane_position this)) /\
  speed s = Qmax 0 (speed this - 0.1) /\
  (1 < speed s <-> 1.1 < speed this) /\
  (1.1 < speed this ->
     health s = (health this - 10)%Z /\
     ((health this - 10 <= 0)%Z -> isGameOver s = true) /\
     ((0 < health this - 10)%Z -> isGameOver s = isGameOver this)) /\
  (speed this <= 1.1 -> health s = health this /\ isGameOver s = isGameOver this).
Proof.
  intros Hy s. subst s. unfold ground. simpl.
  apply Qltb_true in Hy. rewrite Hy.
  pose proof (Qmax_cases 0 (speed this - 0.1)) as Hm.
  destruct (Qltb 1 (Qmax 0 (speed this - 0.1))) eqn:E.
  - apply Qltb_true in E. unfold hardLanding, gameOver. simpl.
    destruct (health this - 10 <=? 0)%Z eqn:Eh; simpl.
    + apply Z.leb_le in Eh. repeat split; intros; try lra; try lia.
    + apply Z.leb_gt in Eh. repeat split; intros; try lra; try lia.
  - apply Qltb_false in E. simpl. repeat split; intros; try lra; try lia.
Qed.

(** ** Reset *)

(** C7.  After [resetAirplane] the aircraft is at the initial position with
    the initial rotation, speed, pitch, roll and yaw are 0, health is 100,
    the game is not over, the clock of the timer starts again from the
    instant of the reset (the elapsed time read at that instant is 0), and
    the score is the one before the reset.  The keys r and R run it. *)
Theorem resetAirplane_restores now this :
  let s := resetAirplane now this in
  airplane_position s = initialPosition /\
  airplane_rotation s = initialRotation /\
  speed s = 0 /\ pitch s = 0 /\ roll s = 0 /\ yaw s = 0 /\
  health s = 100%Z /\
  isGameOver s = false /\
  startTime s = now /\
  elapsedTime (updateTimer now s) == 0 /\
  (forall later, elapsedTime (updateTimer later s) == inject_Z (later - now) / 1000) /\
  score s = score this /\
  keydown "r" now this = resetAirplane now (set_keys (<["r" := true]> (keys this)) this) /\
  keydown "R" now this = resetAirplane now (set_keys (<["R" := true]> (keys this)) this).
Proof.
  simpl. repeat split; try reflexivity.
  unfold updateTimer. simpl. rewrite Z.sub_diag. reflexivity.
Qed.

(** C9.  [resetAirplane] writes the position and rotation of the aircraft,
    speed, pitch, roll, yaw, health, the game-over flag and the start time,
    and nothing else: the score, the bullets in flight, the balloons, the
    obstacles, the weather intensity and every other field are those of the
    state before. *)
Theorem resetAirplane_frame now this :
  resetAirplane now this =
    {| airplane_position := initialPosition;
       airplane_rotation := initialRotation;
       speed := 0; pitch := 0; roll := 0; yaw := 0;
       health := 100;
       isGameOver := false;
       startTime := now;
       altitude := altitude this;
       keys := keys this;
       bullets := bullets this;
       balloons := balloons this;
       obstacles := obstacles this;
       score := score this;
       lastShot := lastShot this;
       weatherIntensity := weatherIntensity this;
       elapsedTime := elapsedTime this;
       isShooting := isShooting this;
       difficulty := difficulty this;
       respawnTimers := respawnTimers this |} /\
  score (resetAirplane now this) = score this /\
  bullets (resetAirplane now this) = bullets this /\
  balloons (resetAirplane now this) = balloons this /\
  obstacles (resetAirplane now this) = obstacles this /\
  weatherIntensity (resetAirplane now this) = weatherIntensity this.
Proof. repeat split. Qed.

(** ** Weather *)

Section Weather.

Hypothesis Math_sin_range : forall q, -1 <= Math_sin q <= 1.

Lemma targetIntensity_range now : 0 <= targetIntensity now <= 0.6.
Proof.
  unfold targetIntensity.
  pose proof (Math_sin_range (inject_Z now * 0.0005)). lra.
Qed.

Lemma clamp_target now :
  Qmin 1 (targetIntensity now) == targetIntensity now /\
  Qmax 0 (Qmin 1 (targetIntensity now)) == targetIntensity now.
Proof.
  pose proof (targetIntensity_range now).
  pose proof (Qmin_cases 1 (targetIntensity now)).
  pose proof (Qmax_cases 0 (Qmin 1 (targetIntensity now))).
  lra.
Qed.

Lemma reachable_intensity this : reachable this -> 0 <= weatherIntensity this <= 0.6.
Proof.
  induction 1 as [d bs obs now|e this _ IH].
  - simpl. lra.
  - destruct (handle_intensity e this) as [->|[now ->]]; [exact IH|].
    pose proof (targetIntensity_range now). pose proof (clamp_target now). lra.
Qed.

(** C10.  With the sine between -1 and 1, the intensity a weather tick
    computes at the instant [now] is [0.3 + sin (now * 0.0005) * 0.3]; it
    lies between 0 and 0.6, the clamp of [setWeatherIntensity] returns it
    as it is (the bound 1 is not reached), and in every reachable state the
    intensity is between 0 and 0.6. *)
Theorem weather_intensity now this :
  weatherIntensity (updateWeather now this)
    == 0.3 + Math_sin (inject_Z now * 0.0005) * 0.3 /\
  0 <= weatherIntensity (updateWeather now this) <= 0.6 /\
  Qmin 1 (targetIntensity now) == targetIntensity now /\
  (reachable this -> 0 <= weatherIntensity this <= 0.6).
Proof.
  rewrite updateWeather_intensity.
  pose proof (targetIntensity_range now) as Hr.
  destruct (clamp_target now) as [Hmin Hmax].
  repeat split; try (rewrite Hmax; apply Hr); try exact Hmin;
    try (apply reachable_intensity; assumption).
  rewrite Hmax. unfold targetIntensity. reflexivity.
Qed.

End Weather.




Lemma sweep_snoc l bullet w :
  sweep (l ++ [bullet]) w =
  let '(kept, w1) := strike bullet w in
  let '(l', w2) := sweep l w1 in
  (l' ++ kept, w2).
Proof.
  revert w. induction l as [|b l IH]; intros w; simpl.
  - destruct (strike bullet w) as [kept w1]. rewrite app_nil_r. reflexivity.
  - rewrite IH. destruct (strike bullet w) as [kept w1].
    destruct (sweep l w1) as [l' w2]. destruct (strike b w2) as [k w3].
    rewrite app_assoc. reflexivity.
Qed.

Lemma bulletLoop_sweep pre : forall post this,
  bullets this = pre ++ post ->
  bulletLoop (length pre) this =
  settle (fst (sweep pre (combat this)) ++ post) (snd (sweep pre (combat this))) this.
Proof.
  induction pre as [|bullet pre IH] using rev_ind; intros post this Hb.
  - simpl in *. unfold settle, combat. rewrite <- Hb. destruct this; reflexivity.
  - rewrite length_app, Nat.add_1_r. rewrite sweep_snoc.
    rewrite <- app_assoc in Hb. simpl in Hb.
    cbn [bulletLoop]. rewrite Hb, (list_lookup_middle pre post bullet _ eq_refl).
    cbn [bullets set_bullets balloons].
    rewrite (insert_app_r_alt pre _ (length pre)) by lia.
    rewrite Nat.sub_diag. cbn [insert list_insert].
    unfold strike. cbn [targets combat].
    destruct (length_gt (bullet_position (advance bullet)) 1000).
    + rewrite delete_middle.
      rewrite (IH post); [|reflexivity].
      unfold combat. cbn [balloons score respawnTimers set_bullets].
      destruct (sweep pre _) as [l' w2]. cbn [fst snd].
      rewrite app_nil_r. reflexivity.
    + destruct (balloonLoop (length (balloons this)) (bullet_position (advance bullet))
                  (balloons this)) as [j|].
      * destruct (balloons this !! j) as [balloon|].
        -- unfold hit. cbn [bullets set_bullets balloons score respawnTimers].
           rewrite delete_middle.
           rewrite (IH post); [|reflexivity].
           unfold combat.
           cbn [balloons score respawnTimers set_bullets set_balloons set_score
                set_respawnTimers].
           destruct (sweep pre _) as [l' w2]. cbn [fst snd].
           rewrite app_nil_r. reflexivity.
        -- rewrite (IH (advance bullet :: post)); [|reflexivity].
           unfold combat. cbn [balloons score respawnTimers set_bullets].
           destruct (sweep pre _) as [l' w2]. cbn [fst snd].
           rewrite <- app_assoc. reflexivity.
      * rewrite (IH (advance bullet :: post)); [|reflexivity].
        unfold combat. cbn [balloons score respawnTimers set_bullets].
        destruct (sweep pre _) as [l' w2]. cbn [fst snd].
        rewrite <- app_assoc. reflexivity.
Qed.

Lemma updateBullets_sweep this :
  updateBullets this =
  settle (fst (sweep (bullets this) (combat this)))
    (snd (sweep (bullets this) (combat this))) this.
Proof.
  unfold updateBullets.
  rewrite (bulletLoop_sweep (bullets this) [] this) by (rewrite app_nil_r; reflexivity).
  rewrite app_nil_r. reflexivity.
Qed.

(** ** The inner loop of [updateBullets] *)

Lemma balloonLoop_Some n p bs j :
  balloonLoop n p bs = Some j ->
  (j < n)%nat /\
  (exists t, bs !! j = Some t /\ near p t = true) /\
  (forall k t, (j < k < n)%nat -> bs !! k = Some t -> near p t = false).
Proof.
  induction n as [|n IH]; simpl; [discriminate|].
  destruct (bs !! n) as [balloon|] eqn:E.
  - fold (near p balloon). destruct (near p balloon) eqn:En.
    + intros [= <-]. split; [lia|]. split; [eauto|]. intros k t Hk. lia.
    + intros H. destruct (IH H) as (Hj & Ht & Hk). split; [lia|]. split; [exact Ht|].
      intros k t Hlt Hl. destruct (Nat.eq_dec k n) as [->|Hne].
      * rewrite E in Hl. injection Hl as <-. exact En.
      * apply (Hk k t); [lia | exact Hl].
  - intros H. destruct (IH H) as (Hj & Ht & Hk). split; [lia|]. split; [exact Ht|].
    intros k t Hlt Hl. destruct (Nat.eq_dec k n) as [->|Hne].
    + rewrite E in Hl. discriminate.
    + apply (Hk k t); [lia | exact Hl].
Qed.

Lemma balloonLoop_None n p bs :
  balloonLoop n p bs = None ->
  forall k t, (k < n)%nat -> bs !! k = Some t -> near p t = false.
Proof.
  induction n as [|n IH]; simpl; intros H k t Hk Hl; [lia|].
  destruct (bs !! n) as [balloon|] eqn:E.
  - fold (near p balloon) in H. destruct (near p balloon) eqn:En; [discriminate|].
    destruct (Nat.eq_dec k n) as [->|Hne].
    + rewrite E in Hl. injection Hl as <-. exact En.
    + apply (IH H k t); [lia | exact Hl].
  - destruct (Nat.eq_dec k n) as [->|Hne].
    + rewrite E in Hl. discriminate.
    + apply (IH H k t); [lia | exact Hl].
Qed.


Lemma balloonLoop_far p bs :
  (forall t, t ∈ bs -> near p t = false) -> forall n, balloonLoop n p bs = None.
Proof.
  intros Hfar n. induction n as [|n IH]; simpl; [reflexivity|].
  destruct (bs !! n) as [balloon|] eqn:E; [|exact IH].
  fold (near p balloon). rewrite (Hfar balloon); [exact IH|].
  apply list_elem_of_lookup_2 in E. exact E.
Qed.

Lemma strike_outcome bullet w : Outcome bullet w (strike bullet w).
Proof.
  unfold strike.
  destruct (length_gt (bullet_position (advance bullet)) 1000) eqn:Er.
  - apply outOfRange. unfold inRange. rewrite Er. reflexivity.
  - assert (inRange (advance bullet) = true) as Hr
      by (unfold inRange; rewrite Er; reflexivity).
    destruct (balloonLoop (length (targets w)) (bullet_position (advance bullet))
                (targets w)) as [j|] eqn:El.
    + destruct (balloonLoop_Some _ _ _ _ El) as (Hj & (t & Ht & Hn) & Hk).
      rewrite Ht. apply struck; try assumption.
      intros k t' Hlt Hl. apply (Hk k t'); [|exact Hl].
      split; [exact Hlt|]. apply lookup_lt_Some in Hl. exact Hl.
    + apply flies; [exact Hr|].
      intros t Ht. apply list_elem_of_lookup_1 in Ht as [k Hk].
      apply (balloonLoop_None _ _ _ El k t); [|exact Hk].
      apply lookup_lt_Some in Hk. exact Hk.
Qed.

(** ** The whole pass of [updateBullets] *)






(** The hits of a pass are counted by the balloons it removes. *)
Lemma sweep_count l : forall w,
  exists hits : nat,
    points (snd (sweep l w)) = (points w + 100 * Z.of_nat hits)%Z /\
    (length (targets (snd (sweep l w))) + hits = length (targets w))%nat /\
    (length (timers (snd (sweep l w))) = length (timers w) + hits)%nat /\
    (length (fst (sweep l w)) + hits <= length l)%nat.
Proof.
  induction l as [|b l IH]; intros w; simpl.
  - exists 0%nat. repeat split; lia.
  - destruct (IH w) as (hits & Hp & Ht & Hm & Hl).
    destruct (sweep l w) as [rest' w1]. simpl in *.
    destruct (strike_outcome b w1) as [_|j balloon _ Hj _ _|_ _]; simpl.
    + exists hits. repeat split; lia.
    + exists (S hits). rewrite length_app. simpl.
      assert (length (delete j (targets w1)) = (length (targets w1) - 1)%nat) as Hd
        by (apply length_delete; eauto).
      apply lookup_lt_Some in Hj.
      repeat split; lia.
    + exists hits. repeat split; lia.
Qed.


(** ** Bullets *)



(** ** Frames after the game is over *)

Lemma updateFlight_gameOver f this : isGameOver this = true -> updateFlight f this = this.
Proof. unfold updateFlight. intros ->. reflexivity. Qed.

(** In simple mode a frame changes nothing once the game is over. *)
Lemma animate_gameOver_simple f this :
  isGameOver this = true -> difficulty this = simple -> animate f this = this.
Proof.
  intros Hg Hd. unfold animate. rewrite (updateFlight_gameOver f this Hg).
  unfold updateBalloons. rewrite Hd.
  unfold updateTimer. rewrite Hg.
  unfold shoot. rewrite Hg. destruct (isShooting this); reflexivity.
Qed.

(** In hard mode it still moves the balloons: [updateBalloons] does not test
    [isGameOver]. *)
Lemma animate_gameOver_hard f this :
  isGameOver this = true -> difficulty this = hard ->
  animate f this = set_balloons (map (moveBalloon (clock_balloons f)) (balloons this)) this.
Proof.
  intros Hg Hd. unfold animate. rewrite (updateFlight_gameOver f this Hg).
  unfold updateBalloons. rewrite Hd.
  unfold updateTimer. cbn [isGameOver set_balloons]. rewrite Hg.
  unfold shoot. cbn [isGameOver isShooting set_balloons]. rewrite Hg.
  destruct (isShooting this); reflexivity.
Qed.

(** ** A frame under a weather penalty *)

(** With no throttle key down and a positive speed at or below [minSpeed],
    a frame under a weather intensity above 0.5 ends with a positive speed
    below [minSpeed]. *)
Lemma weather_penalty_below_minSpeed f this :
  isGameOver this = false ->
  key "w" this = false -> key "s" this = false ->
  0 < speed this <= minSpeed ->
  0.5 < weatherIntensity this <= 1 ->
  0 < speed (updateFlight f this) < minSpeed.
Proof.
  intros Hg Hw Hs Hv Hi. unfold minSpeed in *.
  destruct (updateFlight_vitals f this Hg) as (-> & _).
  assert (0.39 < speed (ground (beforeGround f this)) < 0.5) as Hgr.
  { assert (0.49 < speed (beforeGround f this) < 0.5) as Hb.
    { rewrite beforeGround_speed_eq.
      unfold weatherEffect, minSpeedConstraint, throttle, minSpeed.
      rewrite Hw, Hs.
      destruct (Qltb 0 (speed this) && Qltb (speed this) 0.5) eqn:E;
        cbn [speed weatherIntensity set_speed].
      - destruct Hi as [Hi1 Hi2]. pose proof Hi1 as Hi'. apply Qltb_true in Hi'.
        rewrite Hi'. cbn [speed set_speed]. nra.
      - apply andb_false_iff in E as [E|E]; apply Qltb_false in E; [lra|].
        destruct Hi as [Hi1 Hi2]. pose proof Hi1 as Hi'. apply Qltb_true in Hi'.
        rewrite Hi'. cbn [speed set_speed]. nra. }
    revert Hb. generalize (beforeGround f this). intros s Hb.
    unfold ground, hardLanding, gameOver.
    pose proof (Qmax_cases 0 (speed s - 0.1)).
    repeat case_match; simpl; lra. }
  revert Hgr. generalize (ground (beforeGround f this)). intros s Hgr.
  destruct (checkCollisions_cases s) as [->|(_ & o & ->)]; [lra|].
  unfold collide, gameOver. repeat case_match; simpl; lra.
Qed.

(** ** Runs *)



(** * Further properties *)

(** ** The scene through the handlers *)

Lemma throttle_scene this : scene (throttle this) = scene this.
Proof. fields throttle. Qed.

Lemma minSpeedConstraint_scene this : scene (minSpeedConstraint this) = scene this.
Proof. fields minSpeedConstraint. Qed.

Lemma weatherEffect_scene this : scene (weatherEffect this) = scene this.
Proof. fields weatherEffect. Qed.

Lemma pitchInput_scene this : scene (pitchInput this) = scene this.
Proof. fields pitchInput. Qed.

Lemma rollInput_scene this : scene (rollInput this) = scene this.
Proof. fields rollInput. Qed.

Lemma orient_scene this : scene (orient this) = scene this.
Proof. fields orient. Qed.

Lemma move_scene f this : scene (move f this) = scene this.
Proof. fields move. Qed.

Lemma ground_scene this : scene (ground this) = scene this.
Proof. unfold ground, hardLanding, gameOver. repeat case_match; reflexivity. Qed.

Lemma collide_scene o this : scene (collide o this) = scene this.
Proof. unfold collide, gameOver. repeat case_match; reflexivity. Qed.

Lemma checkCollisions_scene this : scene (checkCollisions this) = scene this.
Proof.
  destruct (checkCollisions_cases this) as [->|(_ & o & ->)]; [reflexivity|].
  apply collide_scene.
Qed.

Lemma beforeGround_scene f this : scene (beforeGround f this) = scene this.
Proof.
  unfold beforeGround.
  rewrite move_scene, orient_scene, rollInput_scene, pitchInput_scene,
    weatherEffect_scene, minSpeedConstraint_scene, throttle_scene.
  reflexivity.
Qed.

Lemma updateWeather_scene now this : scene (updateWeather now this) = scene this.
Proof. reflexivity. Qed.

Lemma updateTimer_scene now this : scene (updateTimer now this) = scene this.
Proof. fields updateTimer. Qed.

Lemma handleMobileControls_scene controls this :
  scene (handleMobileControls controls this) = scene this.
Proof. fields handleMobileControls. Qed.

Lemma keydown_scene k now this : scene (keydown k now this) = scene this.
Proof. fields keydown. Qed.

Lemma keyup_scene k this : scene (keyup k this) = scene this.
Proof. fields keyup. Qed.

Lemma scene_eq a b :
  scene a = scene b ->
  bullets a = bullets b /\ balloons a = balloons b /\ score a = score b /\
  respawnTimers a = respawnTimers b.
Proof. unfold scene. intros H. injection H. auto. Qed.

Lemma scene_inv a (x : list Bullet * list Balloon * Z * list Balloon) :
  scene a = x ->
  bullets a = fst (fst (fst x)) /\ balloons a = snd (fst (fst x)) /\
  score a = snd (fst x) /\ respawnTimers a = snd x.
Proof. intros <-. auto. Qed.

(** The scene after a pass over the bullets is a function of the scene
    before it. *)
Lemma updateBullets_scene this :
  scene (updateBullets this) =
  (fst (sweep (bullets this) (combat this)),
   targets (snd (sweep (bullets this) (combat this))),
   points (snd (sweep (bullets this) (combat this))),
   timers (snd (sweep (bullets this) (combat this)))).
Proof. rewrite updateBullets_sweep. reflexivity. Qed.

Lemma updateBullets_scene_ext a b :
  scene a = scene b -> scene (updateBullets a) = scene (updateBullets b).
Proof.
  intros H. rewrite !updateBullets_scene. unfold combat.
  destruct (scene_eq _ _ H) as (-> & -> & -> & ->). reflexivity.
Qed.

(** The scene at the end of [updateFlight] is the one a pass over the bullets
    makes of the scene at its start. *)
Lemma updateFlight_scene f this :
  scene (updateFlight f this) =
  if isGameOver this then scene this else scene (updateBullets this).
Proof.
  unfold updateFlight. destruct (isGameOver this); [reflexivity|].
  apply updateBullets_scene_ext.
  rewrite updateWeather_scene, checkCollisions_scene, ground_scene.
  apply beforeGround_scene.
Qed.

(** ** The pool of balloons *)

Lemma pool_scene a b : scene a = scene b -> pool a = pool b.
Proof.
  intros H. unfold pool. destruct (scene_eq _ _ H) as (_ & -> & _ & ->). reflexivity.
Qed.

Lemma updateBullets_pool this : pool (updateBullets this) = pool this.
Proof.
  unfold pool.
  destruct (scene_inv _ _ (updateBullets_scene this)) as (_ & -> & _ & ->).
  destruct (sweep_count (bullets this) (combat this)) as (hits & _ & Ht & Hm & _).
  cbn [targets timers combat] in *. cbn [fst snd]. lia.
Qed.

Lemma shoot_rest now this :
  balloons (shoot now this) = balloons this /\
  score (shoot now this) = score this /\
  respawnTimers (shoot now this) = respawnTimers this.
Proof. unfold shoot. repeat case_match; auto. Qed.

Lemma updateBalloons_rest now this :
  length (balloons (updateBalloons now this)) = length (balloons this) /\
  bullets (updateBalloons now this) = bullets this /\
  score (updateBalloons now this) = score this /\
  respawnTimers (updateBalloons now this) = respawnTimers this.
Proof.
  unfold updateBalloons. destruct (difficulty this); cbn [balloons set_balloons]; auto.
  rewrite length_map. auto.
Qed.

Lemma updateFlight_pool f this : pool (updateFlight f this) = pool this.
Proof.
  rewrite <- (updateBullets_pool this).
  destruct (isGameOver this) eqn:Hg.
  - rewrite updateBullets_pool. unfold updateFlight. rewrite Hg. reflexivity.
  - apply pool_scene. rewrite updateFlight_scene, Hg. reflexivity.
Qed.

Lemma animate_pool f this : pool (animate f this) = pool this.
Proof.
  rewrite <- (updateFlight_pool f this). unfold animate.
  assert (pool (updateTimer (clock_timer f)
                  (updateBalloons (clock_balloons f) (updateFlight f this)))
          = pool (updateFlight f this)) as Ht.
  { rewrite (pool_scene _ _ (updateTimer_scene _ _)). unfold pool.
    destruct (updateBalloons_rest (clock_balloons f) (updateFlight f this))
      as (-> & _ & _ & ->). reflexivity. }
  case_match; [|exact Ht].
  rewrite <- Ht. unfold pool.
  destruct (shoot_rest (clock_shoot f)
              (updateTimer (clock_timer f)
                 (updateBalloons (clock_balloons f) (updateFlight f this))))
    as (-> & _ & ->).
  reflexivity.
Qed.

Lemma respawn_pool r this : pool (respawn r this) = pool this.
Proof.
  unfold respawn, pool.
  destruct (respawnTimers this) as [|balloon pending] eqn:Et; [rewrite Et; reflexivity|].
  cbn [balloons respawnTimers set_balloons set_respawnTimers].
  rewrite length_app. simpl. lia.
Qed.

Lemma handle_pool e this : pool (handle e this) = pool this.
Proof.
  destruct e as [f|now|k now|k|controls|r]; simpl.
  - apply animate_pool.
  - reflexivity.
  - apply pool_scene, keydown_scene.
  - apply pool_scene, keyup_scene.
  - apply pool_scene, handleMobileControls_scene.
  - apply respawn_pool.
Qed.

Lemma run_pool es : forall this, pool (run es this) = pool this.
Proof.
  unfold run. induction es as [|e es IH]; intros this; simpl; [reflexivity|].
  rewrite IH. apply handle_pool.
Qed.

(** Through a whole game the balloons in the scene and the balloons waiting
    for their respawn are together as many as the balloons at the start:
    a hit moves one balloon from the scene to the timers and a respawn moves
    one back. *)
Theorem pool_conserved es :
  (forall this, pool (run es this) = pool this) /\
  (forall d bs obs now,
     (length (balloons (run es (initialState d bs obs now)))
      + length (respawnTimers (run es (initialState d bs obs now))))%nat = length bs).
Proof.
  pose proof (run_pool es) as H.
  split; [exact H|].
  intros d bs obs now. specialize (H (initialState d bs obs now)).
  unfold pool in H. rewrite H. simpl. lia.
Qed.

(** ** The score *)

Lemma updateBullets_score this :
  exists hits : nat,
    score (updateBullets this) = (score this + 100 * Z.of_nat hits)%Z /\
    (hits <= length (bullets this))%nat.
Proof.
  destruct (scene_inv _ _ (updateBullets_scene this)) as (_ & _ & -> & _).
  destruct (sweep_count (bullets this) (combat this)) as (hits & Hp & _ & _ & Hl).
  exists hits. cbn [points combat] in Hp. cbn [fst snd]. split; [exact Hp | lia].
Qed.

Lemma handle_score e this :
  exists hits : nat,
    score (handle e this) = (score this + 100 * Z.of_nat hits)%Z /\
    (hits <= length (bullets this))%nat.
Proof.
  assert (forall s, score s = score this ->
            exists hits : nat,
              score s = (score this + 100 * Z.of_nat hits)%Z /\
              (hits <= length (bullets this))%nat) as Hsame.
  { intros s ->. exists 0%nat. split; lia. }
  destruct e as [f|now|k now|k|controls|r]; simpl.
  - assert (score (animate f this) = score (updateFlight f this)) as ->.
    { unfold animate.
      assert (score (updateTimer (clock_timer f)
                       (updateBalloons (clock_balloons f) (updateFlight f this)))
              = score (updateFlight f this)) as Ht.
      { destruct (scene_eq _ _ (updateTimer_scene (clock_timer f)
                    (updateBalloons (clock_balloons f) (updateFlight f this))))
          as (_ & _ & -> & _).
        apply updateBalloons_rest. }
      case_match; [|exact Ht]. rewrite <- Ht. apply shoot_rest. }
    pose proof (updateFlight_scene f this) as Hf.
    destruct (isGameOver this).
    + apply Hsame. apply (scene_eq _ _ Hf).
    + destruct (scene_eq _ _ Hf) as (_ & _ & -> & _). apply updateBullets_score.
  - apply Hsame. reflexivity.
  - apply Hsame. apply (scene_eq _ _ (keydown_scene k now this)).
  - apply Hsame. apply (scene_eq _ _ (keyup_scene k this)).
  - apply Hsame. apply (scene_eq _ _ (handleMobileControls_scene controls this)).
  - apply Hsame. unfold respawn. case_match; reflexivity.
Qed.

(** The score never goes down: every run adds a multiple of 100 to it, so the
    score of a game is a multiple of 100 that is not negative, and one event
    adds at most 100 per bullet in flight. *)
Theorem score_grows es :
  (forall this, exists hits : nat,
     score (run es this) = (score this + 100 * Z.of_nat hits)%Z) /\
  (forall d bs obs now, exists hits : nat,
     score (run es (initialState d bs obs now)) = (100 * Z.of_nat hits)%Z) /\
  (forall e this, exists hits : nat,
     score (handle e this) = (score this + 100 * Z.of_nat hits)%Z /\
     (hits <= length (bullets this))%nat).
Proof.
  assert (forall this, exists hits : nat,
            score (run es this) = (score this + 100 * Z.of_nat hits)%Z) as H.
  { unfold run. induction es as [|e es IH]; intros this; simpl.
    - exists 0%nat. lia.
    - destruct (IH (handle e this)) as [h2 ->].
      destruct (handle_score e this) as (h1 & -> & _).
      exists (h1 + h2)%nat. lia. }
  split; [exact H|]. split; [|apply handle_score].
  intros d bs obs now. destruct (H (initialState d bs obs now)) as [hits ->].
  exists hits. simpl. lia.
Qed.

(** ** After the game is over *)

(** Once the game is over, no event but the reset keys ends it or touches the
    health, the score, the bullets, the pose of the aircraft, the elapsed time
    or the time of the last shot; the reset keys end it with a health of 100. *)
Theorem gameOver_persists e this :
  isGameOver this = true ->
  (isReset e = false ->
   isGameOver (handle e this) = true /\
   health (handle e this) = health this /\
   score (handle e this) = score this /\
   bullets (handle e this) = bullets this /\
   airplane_position (handle e this) = airplane_position this /\
   airplane_rotation (handle e this) = airplane_rotation this /\
   elapsedTime (handle e this) = elapsedTime this /\
   lastShot (handle e this) = lastShot this) /\
  (isReset e = true ->
   isGameOver (handle e this) = false /\ health (handle e this) = 100%Z).
Proof.
  intros Hg. destruct e as [f|now|k now|k|controls|r]; simpl;
    (split; [intros Hr | intros Hr; try discriminate Hr]).
  - destruct (difficulty this) eqn:Hd.
    + rewrite (animate_gameOver_simple f this Hg Hd). auto 10.
    + rewrite (animate_gameOver_hard f this Hg Hd). auto 10.
  - auto 10.
  - unfold keydown. rewrite Hr. case_match; auto 10.
  - unfold keydown. rewrite Hr. auto.
  - unfold keyup. case_match; auto 10.
  - unfold handleMobileControls. repeat case_match; auto 10.
  - unfold respawn. repeat case_match; auto 10.
Qed.

(** ** The cooldown of the gun *)

Lemma shoot_fires now this :
  isGameOver this = false ->
  (50 <= now - lastShot this)%Z ->
  shoot now this =
    set_bullets
      (bullets this ++
         [mkBullet (airplane_position this)
            (multiplyScalar (applyQuaternion (mkVector3 0 0 (-1)) (airplane_rotation this)) 12)])
      (set_lastShot now this).
Proof.
  intros Hg Hc. unfold shoot, shotCooldown. rewrite Hg.
  apply Z.ltb_ge in Hc. rewrite Hc. reflexivity.
Qed.

Lemma shoot_holds now this :
  (now - lastShot this < 50)%Z -> shoot now this = this.
Proof.
  intros Hc. unfold shoot, shotCooldown. apply Z.ltb_lt in Hc. rewrite Hc.
  case_match; reflexivity.
Qed.

(** Two calls of [shoot] less than 50 ms apart add at most one bullet; a call
    at least 50 ms after the last shot adds one bullet at the position of the
    aircraft, flying 12 per frame along its nose, behind the bullets already
    in flight, and a second call less than 50 ms later changes nothing; two
    calls at least 50 ms after the last shot and apart add two. *)
Theorem shoot_cooldown now1 now2 this :
  isGameOver this = false ->
  ((now2 - now1 < 50)%Z ->
   (length (bullets (shoot now2 (shoot now1 this))) <= length (bullets this) + 1)%nat) /\
  ((50 <= now1 - lastShot this)%Z ->
   bullets (shoot now1 this) =
     bullets this ++
       [mkBullet (airplane_position this)
          (multiplyScalar (applyQuaternion (mkVector3 0 0 (-1)) (airplane_rotation this))
             12)] /\
   ((now2 - now1 < 50)%Z -> shoot now2 (shoot now1 this) = shoot now1 this) /\
   ((50 <= now2 - now1)%Z ->
    length (bullets (shoot now2 (shoot now1 this))) = (length (bullets this) + 2)%nat)).
Proof.
  intros Hg. split.
  - intros Hc. destruct (Z_lt_ge_dec (now1 - lastShot this) 50) as [H1|H1].
    + rewrite (shoot_holds now1 this H1).
      destruct (Z_lt_ge_dec (now2 - lastShot this) 50) as [H2|H2].
      * rewrite (shoot_holds now2 this H2). lia.
      * rewrite (shoot_fires now2 this Hg) by lia.
        cbn [bullets set_bullets]. rewrite length_app. simpl. lia.
    + rewrite (shoot_fires now1 this Hg) by lia.
      rewrite shoot_holds by (cbn [lastShot set_bullets set_lastShot]; exact Hc).
      cbn [bullets set_bullets]. rewrite length_app. simpl. lia.
  - intros H1. rewrite (shoot_fires now1 this Hg H1).
    split; [reflexivity|]. split.
    + intros Hc. apply shoot_holds. exact Hc.
    + intros Hc. rewrite shoot_fires; [|exact Hg|exact Hc].
      cbn [bullets set_bullets]. rewrite !length_app. simpl. lia.
Qed.

(** ** The key map *)

Lemma keydown_keys k now this : keys (keydown k now this) = <[k := true]> (keys this).
Proof. fields keydown. Qed.

Lemma keyup_keys k this : keys (keyup k this) = <[k := false]> (keys this).
Proof. fields keyup. Qed.

(** A key reads as down after its [keydown] and as up after its [keyup], the
    other keys read as before, also when the key is one that resets the
    aircraft, and at the start every key reads as up. *)
Theorem key_round_trip k now this :
  key k (keydown k now this) = true /\
  key k (keyup k this) = false /\
  key k (keyup k (keydown k now this)) = false /\
  (forall k', k' <> k ->
     key k' (keydown k now this) = key k' this /\ key k' (keyup k this) = key k' this) /\
  (forall d bs obs, key k (initialState d bs obs now) = false).
Proof.
  unfold key. rewrite !keyup_keys, !keydown_keys.
  rewrite !lookup_insert_eq. repeat split; try reflexivity.
  - rewrite lookup_insert_ne by congruence. reflexivity.
  - rewrite lookup_insert_ne by congruence. reflexivity.
Qed.

(** ** The damage of one frame *)

Lemma ground_damage this :
  health (ground this) = health this \/ health (ground this) = (health this - 10)%Z.
Proof.
  unfold ground, hardLanding, gameOver. repeat case_match; cbn; auto.
Qed.

Lemma checkCollisions_damage this :
  health (checkCollisions this) = health this \/
  health (checkCollisions this) = (health this - 20)%Z.
Proof.
  destruct (checkCollisions_cases this) as [->|(_ & o & ->)]; [left; reflexivity|].
  right. apply collide_takes_twenty.
Qed.

(** A frame takes 0, 10, 20 or 30 from the health: at most one hard landing
    and at most one collision, however many obstacles are within reach. *)
Theorem frame_damage f this :
  health (updateFlight f this) = health this \/
  health (updateFlight f this) = (health this - 10)%Z \/
  health (updateFlight f this) = (health this - 20)%Z \/
  health (updateFlight f this) = (health this - 30)%Z.
Proof.
  destruct (isGameOver this) eqn:Hg.
  - left. unfold updateFlight. rewrite Hg. reflexivity.
  - destruct (updateFlight_vitals f this Hg) as (_ & -> & _).
    destruct (status_eq _ _ (beforeGround_status f this)) as (Hh & _).
    destruct (checkCollisions_damage (ground (beforeGround f this))) as [->| ->];
      destruct (ground_damage (beforeGround f this)) as [-> | ->]; rewrite Hh; auto.
    right. right. right. lia.
Qed.

(** ** The brake *)

(** In a frame with the brake key down and the throttle key up, with no weather
    penalty, ground contact or collision, a speed above 0.05 drops by 0.05 but
    not below [minSpeed], and a speed of at most 0.05 drops to 0: the brake
    alone does not bring a moving aircraft to rest. *)
Theorem brake_floor f this :
  isGameOver this = false ->
  key "w" this = false ->
  key "s" this = true ->
  weatherIntensity this <= 0.5 ->
  belowFloor (beforeGround f this) = false ->
  inCollision (ground (beforeGround f this)) = false ->
  (0.05 < speed this -> speed (updateFlight f this) == Qmax minSpeed (speed this - 0.05)) /\
  (speed this <= 0.05 -> speed (updateFlight f this) == 0).
Proof.
  intros Hg Hw Hs Hi Ht Hc.
  destruct (quiet_frame f this Hg Ht Hc) as (-> & _).
  rewrite weatherEffect_fair.
  2:{ destruct (status_eq _ _ (minSpeedConstraint_status (throttle this)))
        as (_ & _ & -> & _).
      destruct (status_eq _ _ (throttle_status this)) as (_ & _ & -> & _). exact Hi. }
  unfold minSpeedConstraint, throttle. rewrite Hw, Hs. cbn [speed set_speed].
  pose proof (Qmax_cases (speed this - 0.05) 0) as Hm.
  pose proof (Qmax_cases minSpeed (speed this - 0.05)) as Hn.
  unfold minSpeed in *.
  destruct (Qltb 0 (Qmax (speed this - 0.05) 0)) eqn:E1;
    destruct (Qltb (Qmax (speed this - 0.05) 0) 0.5) eqn:E2; cbn [andb speed set_speed];
    try apply Qltb_false in E1; try apply Qltb_false in E2;
    try apply Qltb_true in E1; try apply Qltb_true in E2;
    split; intros; lra.
Qed.

(** ** Pitch, roll and yaw *)

Lemma throttle_attitude this : attitude (throttle this) = attitude this.
Proof. fields throttle. Qed.

Lemma minSpeedConstraint_attitude this : attitude (minSpeedConstraint this) = attitude this.
Proof. fields minSpeedConstraint. Qed.

Lemma weatherEffect_attitude this : attitude (weatherEffect this) = attitude this.
Proof. fields weatherEffect. Qed.

Lemma orient_attitude this : attitude (orient this) = attitude this.
Proof. fields orient. Qed.

Lemma move_attitude f this : attitude (move f this) = attitude this.
Proof. fields move. Qed.

Lemma ground_attitude this : attitude (ground this) = attitude this.
Proof. unfold ground, hardLanding, gameOver. repeat case_match; reflexivity. Qed.

Lemma checkCollisions_attitude this : attitude (checkCollisions this) = attitude this.
Proof.
  destruct (checkCollisions_cases this) as [->|(_ & o & ->)]; [reflexivity|].
  unfold collide, gameOver. repeat case_match; reflexivity.
Qed.

Lemma updateWeather_attitude now this : attitude (updateWeather now this) = attitude this.
Proof. reflexivity. Qed.

Lemma bulletLoop_attitude i : forall this, attitude (bulletLoop i this) = attitude this.
Proof.
  induction i as [|i IH]; intros this; simpl; [reflexivity|].
  repeat case_match; rewrite IH; reflexivity.
Qed.






Lemma attitude_eq a b :
  attitude a = attitude b -> pitch a = pitch b /\ roll a = roll b /\ yaw a = yaw b.
Proof. unfold attitude. intros H. injection H. auto. Qed.

Lemma pitchInput_keys this : keys (pitchInput this) = keys this.
Proof. fields pitchInput. Qed.

Lemma pitchInput_ext a b :
  keys a = keys b -> attitude a = attitude b ->
  attitude (pitchInput a) = attitude (pitchInput b).
Proof.
  intros Hk Ha. destruct (attitude_eq _ _ Ha) as (Hp & Hr & Hy).
  unfold pitchInput, key. rewrite Hk.
  repeat case_match; unfold attitude; cbn; rewrite ?Hp, ?Hr, ?Hy; reflexivity.
Qed.

Lemma rollInput_ext a b :
  keys a = keys b -> attitude a = attitude b ->
  attitude (rollInput a) = attitude (rollInput b).
Proof.
  intros Hk Ha. destruct (attitude_eq _ _ Ha) as (Hp & Hr & Hy).
  unfold rollInput, key. rewrite Hk.
  repeat case_match; unfold attitude; cbn; rewrite ?Hp, ?Hr, ?Hy; reflexivity.
Qed.

(** The angles after the two inputs depend on the keys and the angles only. *)
Lemma inputs_attitude a b :
  keys a = keys b -> attitude a = attitude b ->
  attitude (rollInput (pitchInput a)) = attitude (rollInput (pitchInput b)).
Proof.
  intros Hk Ha. apply rollInput_ext.
  - rewrite !pitchInput_keys. exact Hk.
  - apply pitchInput_ext; assumption.
Qed.

Lemma updateFlight_attitude f this :
  isGameOver this = false ->
  attitude (updateFlight f this) = attitude (rollInput (pitchInput this)).
Proof.
  intros Hg. unfold updateFlight. rewrite Hg. unfold updateBullets.
  rewrite bulletLoop_attitude, updateWeather_attitude, checkCollisions_attitude,
    ground_attitude.
  unfold beforeGround. rewrite move_attitude, orient_attitude.
  apply inputs_attitude.
  - destruct (status_eq _ _ (weatherEffect_status (minSpeedConstraint (throttle this))))
      as (_ & _ & _ & ->).
    destruct (status_eq _ _ (minSpeedConstraint_status (throttle this)))
      as (_ & _ & _ & ->).
    apply (status_eq _ _ (throttle_status this)).
  - rewrite weatherEffect_attitude, minSpeedConstraint_attitude. apply throttle_attitude.
Qed.


(** With no arrow key down a frame keeps pitch and yaw and takes a twentieth
    off the roll.  The up arrow adds 0.02 to the pitch, up to a third of
    [Math.PI], and the down arrow alone takes 0.02 off it, down to minus that;
    the left arrow adds 0.02 to the roll, up to a third of [Math.PI], and 0.01
    to the yaw, also when the right arrow is down too; the right arrow alone
    does the opposite. *)
Theorem steering f this :
  isGameOver this = false ->
  (key "ArrowUp" this = false -> key "ArrowDown" this = false ->
     pitch (updateFlight f this) = pitch this) /\
  (key "ArrowUp" this = true ->
     pitch (updateFlight f this) = Qmin (pitch this + 0.02) (Math_PI / 3)) /\
  (key "ArrowUp" this = false -> key "ArrowDown" this = true ->
     pitch (updateFlight f this) = Qmax (pitch this - 0.02) (- Math_PI / 3)) /\
  (key "ArrowLeft" this = false -> key "ArrowRight" this = false ->
     roll (updateFlight f this) = roll this * 0.95 /\
     yaw (updateFlight f this) = yaw this) /\
  (key "ArrowLeft" this = true ->
     roll (updateFlight f this) = Qmin (roll this + 0.02) (Math_PI / 3) /\
     yaw (updateFlight f this) = yaw this + 0.01) /\
  (key "ArrowLeft" this = false -> key "ArrowRight" this = true ->
     roll (updateFlight f this) = Qmax (roll this - 0.02) (- Math_PI / 3) /\
     yaw (updateFlight f this) = yaw this - 0.01).
Proof.
  intros Hg.
  destruct (attitude_eq _ _ (updateFlight_attitude f this Hg)) as (-> & -> & ->).
  unfold rollInput, pitchInput, key.
  repeat split; intros; repeat case_match; cbn in *; congruence.
Qed.






(** ** The timer *)

Lemma Qfloor_unique (q : Q) (n : Z) :
  inject_Z n <= q < inject_Z (n + 1) -> Qfloor q = n.
Proof.
  intros [Hl Hu].
  pose proof (Qfloor_le q) as H1. pose proof (Qlt_floor q) as H2.
  assert (inject_Z n < inject_Z (Qfloor q + 1)) as H3 by lra.
  assert (inject_Z (Qfloor q) < inject_Z (n + 1)) as H4 by lra.
  rewrite <- Zlt_Qlt in H3, H4. lia.
Qed.

Lemma Qfloor_bounds (q : Q) : inject_Z (Qfloor q) <= q < inject_Z (Qfloor q) + 1.
Proof.
  pose proof (Qfloor_le q) as H1. pose proof (Qlt_floor q) as H2.
  rewrite inject_Z_plus in H2. change (inject_Z 1) with 1 in H2. lra.
Qed.

(** The minutes and seconds of a time that is not negative. *)
Lemma timer_split (elapsed : Q) :
  0 <= elapsed ->
  (0 <= timerSeconds elapsed <= 59)%Z /\
  (0 <= timerMinutes elapsed)%Z /\
  (timerMinutes elapsed * 60 + timerSeconds elapsed = Qfloor elapsed)%Z.
Proof.
  intros Hpos. unfold timerSeconds, timerMinutes, remainder.
  assert (elapsed / 60 * 60 == elapsed) as Hq by (apply Qdiv_mult_l; discriminate).
  set (q := elapsed / 60) in *.
  assert (Qtruncate q = Qfloor q) as ->.
  { unfold Qtruncate. assert (0 <= q) as H0 by lra.
    apply Qle_bool_iff in H0. rewrite H0. reflexivity. }
  pose proof (Qfloor_bounds q) as Hm.
  set (m := Qfloor q) in *.
  pose proof (Qfloor_bounds (elapsed - 60 * inject_Z m)) as Hs.
  set (s := Qfloor (elapsed - 60 * inject_Z m)) in *.
  assert (inject_Z (-1) < inject_Z s) as Hs0 by (change (inject_Z (-1)) with (-1); lra).
  assert (inject_Z s < inject_Z 60) as Hs1 by (change (inject_Z 60) with 60; lra).
  assert (inject_Z (-1) < inject_Z m) as Hm0 by (change (inject_Z (-1)) with (-1); lra).
  rewrite <- Zlt_Qlt in Hs0, Hs1, Hm0.
  split; [lia|]. split; [lia|].
  symmetry. apply Qfloor_unique.
  rewrite !inject_Z_plus, inject_Z_mult.
  change (inject_Z 60) with 60. change (inject_Z 1) with 1. lra.
Qed.

Lemma Qfloor_milliseconds (ms : Z) : Qfloor (inject_Z ms / 1000) = (ms / 1000)%Z.
Proof.
  unfold Qfloor, Qdiv, Qmult, Qinv, inject_Z. cbn [Qnum Qden].
  rewrite Z.mul_1_r. reflexivity.
Qed.

(** When [updateTimer] runs at or after the start time in a game that is not
    over, the seconds it shows are between 0 and 59, the minutes are not
    negative, and together they are the whole seconds since the start. *)
Theorem timer_fields now this :
  isGameOver this = false ->
  (startTime this <= now)%Z ->
  elapsedTime (updateTimer now this) = inject_Z (now - startTime this) / 1000 /\
  (0 <= timerSeconds (elapsedTime (updateTimer now this)) <= 59)%Z /\
  (0 <= timerMinutes (elapsedTime (updateTimer now this)))%Z /\
  (timerMinutes (elapsedTime (updateTimer now this)) * 60
   + timerSeconds (elapsedTime (updateTimer now this))
   = (now - startTime this) / 1000)%Z.
Proof.
  intros Hg Hle. unfold updateTimer. rewrite Hg. cbn [elapsedTime set_elapsedTime].
  split; [reflexivity|].
  assert (0 <= inject_Z (now - startTime this) / 1000) as Hpos.
  { apply Qle_shift_div_l; [reflexivity|].
    rewrite Qmult_0_l. change 0 with (inject_Z 0). rewrite <- Zle_Qle. lia. }
  destruct (timer_split _ Hpos) as (Hs & Hm & Hsum).
  rewrite Qfloor_milliseconds in Hsum. auto.
Qed.

(** ** The mobile controls *)

Lemma exclusive_throttle m :
  ~ (c_throttle (MobileControls.updateControls m) = true /\
     c_brake (MobileControls.updateControls m) = true).
Proof.
  unfold MobileControls.updateControls. cbn [c_throttle c_brake].
  intros [H1 H2]. apply Qltb_true in H1, H2. lra.
Qed.

(** The right joystick moves the speed by one step of 0.05 per event: up to
    [maxSpeed] when the throttle value, the opposite of the vertical
    coordinate, is above 0.3, down to 0 when it is below -0.3, and not at all
    in between or when the joystick is released; no record passed to the
    simulator has both the throttle and the brake. *)
Theorem joystick_throttle v m this :
  (0.3 < - MobileControls.orZero (MobileControls.vector_y v) ->
   speed (snd (MobileControls.handle (MobileControls.RightMove v) (m, this)))
     = Qmin (speed this + 0.05) maxSpeed) /\
  (- MobileControls.orZero (MobileControls.vector_y v) < -0.3 ->
   speed (snd (MobileControls.handle (MobileControls.RightMove v) (m, this)))
     = Qmax (speed this - 0.05) 0) /\
  (-0.3 <= - MobileControls.orZero (MobileControls.vector_y v) <= 0.3 ->
   speed (snd (MobileControls.handle (MobileControls.RightMove v) (m, this)))
     = speed this) /\
  speed (snd (MobileControls.handle MobileControls.RightEnd (m, this))) = speed this /\
  (forall m', ~ (c_throttle (MobileControls.updateControls m') = true /\
                 c_brake (MobileControls.updateControls m') = true)).
Proof.
  unfold MobileControls.handle, MobileControls.listen, MobileControls.updateControls,
    handleMobileControls.
  cbn [fst snd c_throttle c_brake c_pitch c_roll c_fire MobileControls.currentThrottle
       MobileControls.currentPitch MobileControls.currentRoll MobileControls.isShooting
       speed set_speed set_pitch set_roll set_isShooting].
  repeat split.
  - intros H. apply Qltb_true in H. rewrite H. reflexivity.
  - intros H. assert (Qltb 0.3 (- MobileControls.orZero (MobileControls.vector_y v)) = false)
      as -> by (apply Qltb_false; lra).
    apply Qltb_true in H. rewrite H. reflexivity.
  - intros [H1 H2].
    assert (Qltb 0.3 (- MobileControls.orZero (MobileControls.vector_y v)) = false)
      as -> by (apply Qltb_false; lra).
    assert (Qltb (- MobileControls.orZero (MobileControls.vector_y v)) (-0.3) = false)
      as -> by (apply Qltb_false; lra).
    reflexivity.
  - apply exclusive_throttle.
Qed.

Lemma listen_unit i m :
  MobileControls.unitInput i ->
  -1 <= MobileControls.currentPitch m <= 1 /\ -1 <= MobileControls.currentRoll m <= 1 ->
  (-1 <= MobileControls.currentPitch (fst (MobileControls.listen i m)) <= 1 /\
   -1 <= MobileControls.currentRoll (fst (MobileControls.listen i m)) <= 1) /\
  (forall controls, snd (MobileControls.listen i m) = Some controls ->
                    unitInput (MobileInput controls)).
Proof.
  intros Hi Hm.
  destruct i as [v| |v| |px py l r|]; simpl in *;
    try (split; [unfold MobileControls.unitVector in *; lra
                | intros c [= <-]; simpl; unfold MobileControls.unitVector in *; lra]).
  destruct (negb (MobileControls.isTouchOnJoystick px py l)
            && negb (MobileControls.isTouchOnJoystick px py r)); simpl.
  - split; [lra | intros c [= <-]; simpl; lra].
  - split; [lra | intros c [=]].
Qed.

(** With joystick coordinates between -1 and 1, every record the mobile
    controls pass to the simulator has its pitch and roll between -1 and 1. *)
Theorem mobile_callbacks_unit inputs :
  Forall MobileControls.unitInput inputs ->
  Forall (fun controls => unitInput (MobileInput controls))
         (MobileControls.callbacks inputs MobileControls.create).
Proof.
  intros Hin.
  assert (-1 <= MobileControls.currentPitch MobileControls.create <= 1 /\
          -1 <= MobileControls.currentRoll MobileControls.create <= 1) as Hm
    by (simpl; lra).
  revert Hm. generalize MobileControls.create.
  induction Hin as [|i inputs Hi Hin IH]; intros m Hm; simpl; [constructor|].
  destruct (listen_unit i m Hi Hm) as [Hm' Hc].
  destruct (MobileControls.listen i m) as [m' [controls|]]; simpl in *.
  - constructor; [apply Hc; reflexivity | apply IH, Hm'].
  - apply IH, Hm'.
Qed.

(** ** Spawning balloons *)

Lemma Qabs_cases (q : Q) : (0 <= q /\ Qabs q == q) \/ (q <= 0 /\ Qabs q == - q).
Proof.
  destruct (Qlt_le_dec q 0) as [H|H].
  - right. split; [lra|]. apply Qabs_neg. lra.
  - left. split; [exact H|]. apply Qabs_pos, H.
Qed.

Lemma draw_position (r : Q) :
  isDraw r -> -500 <= (r - 0.5) * 1000 < 500 /\ 50 <= 50 + r * 200 < 250.
Proof. unfold isDraw. lra. Qed.

Lemma draw_velocity (r : Q) : isDraw r -> Qabs ((r - 0.5) * 0.5) <= 0.25.
Proof.
  unfold isDraw. intros H. destruct (Qabs_cases ((r - 0.5) * 0.5)) as [[? ->]|[? ->]]; lra.
Qed.

Lemma spawnBalloon_spawned d random n :
  (forall k, isDraw (random k)) -> spawned d (fst (spawnBalloon d random n)).
Proof.
  intros Hr. unfold spawned, spawnBalloon, inBox.
  pose proof (draw_position _ (Hr (n + 1)%nat)).
  pose proof (draw_position _ (Hr (n + 2)%nat)).
  pose proof (draw_position _ (Hr (n + 3)%nat)).
  destruct d; cbn.
  - split; [lra | reflexivity].
  - split; [lra|]. eexists. split; [reflexivity|]. cbn.
    split; apply draw_velocity, Hr.
Qed.

Lemma spawnLoop_spawned d random todo : forall n bs,
  (forall k, isDraw (random k)) ->
  Forall (spawned d) bs ->
  length (fst (spawnLoop todo d random n bs)) = (length bs + todo)%nat /\
  Forall (spawned d) (fst (spawnLoop todo d random n bs)) /\
  snd (spawnLoop todo d random n bs)
    = (n + todo * match d with simple => 4 | hard => 7 end)%nat.
Proof.
  induction todo as [|todo IH]; intros n bs Hr Hbs; simpl.
  - repeat split; [lia | exact Hbs | lia].
  - pose proof (spawnBalloon_spawned d random n Hr) as Hb.
    assert (snd (spawnBalloon d random n)
            = (n + match d with simple => 4 | hard => 7 end)%nat) as Hn
      by (unfold spawnBalloon; destruct d; reflexivity).
    destruct (spawnBalloon d random n) as [balloon n']. simpl in Hb, Hn. subst n'.
    destruct (IH (n + match d with simple => 4 | hard => 7 end)%nat (bs ++ [balloon]) Hr)
      as (Hl & Hf & Hk).
    { apply Forall_app. split; [exact Hbs|]. constructor; [exact Hb | constructor]. }
    rewrite Hl, Hk, length_app. simpl. repeat split; [lia | exact Hf | lia].
Qed.

(** With draws of [Math.random()] between 0 and 1, [spawnBalloons] makes 20
    balloons inside the box of 1000 by 200 by 1000, without a velocity in
    simple mode and with a horizontal velocity of at most 0.25 per axis in
    hard mode, from 80 draws in simple mode and 140 in hard mode; through any
    game that starts with them, the balloons in the scene and those waiting for
    their respawn are 20. *)
Theorem spawnBalloons_twenty d random n :
  (forall k, isDraw (random k)) ->
  length (fst (spawnBalloons d random n)) = 20%nat /\
  Forall (spawned d) (fst (spawnBalloons d random n)) /\
  snd (spawnBalloons d random n) = (n + match d with simple => 80 | hard => 140 end)%nat /\
  (forall es obs now,
     pool (run es (initialState d (fst (spawnBalloons d random n)) obs now)) = 20%nat).
Proof.
  intros Hr. unfold spawnBalloons.
  destruct (spawnLoop_spawned d random 20 n [] Hr (Forall_nil_2 _)) as (Hl & Hf & Hk).
  split; [exact Hl|]. split; [exact Hf|]. split; [rewrite Hk; destruct d; lia|].
  intros es obs now. rewrite run_pool. unfold pool. cbn [balloons respawnTimers initialState].
  rewrite Hl. reflexivity.
Qed.

(** The callback of a respawn does nothing when no respawn is pending;
    otherwise, with draws between 0 and 1, it takes the oldest pending balloon
    off the timers and adds, behind the balloons of the scene, a balloon inside
    the box, with a fresh horizontal velocity of at most 0.25 per axis in hard
    mode and with the velocity of the balloon that was hit in simple mode. *)
Theorem respawn_in_box r this :
  fairDraws r ->
  (respawnTimers this = [] -> respawn r this = this) /\
  (forall balloon pending,
     respawnTimers this = balloon :: pending ->
     exists b,
       balloons (respawn r this) = balloons this ++ [b] /\
       respawnTimers (respawn r this) = pending /\
       inBox (balloon_position b) /\
       (difficulty this = hard ->
        exists v, userData_velocity b = Some v /\
                  Qabs (x v) <= 0.25 /\ Qabs (z v) <= 0.25) /\
       (difficulty this = simple -> userData_velocity b = userData_velocity balloon)).
Proof.
  intros (H1 & H2 & H3 & H4 & H5 & H6). unfold respawn. split.
  - intros ->. reflexivity.
  - intros balloon pending ->. eexists. split; [reflexivity|]. split; [reflexivity|].
    cbn [balloon_position userData_velocity]. split.
    + unfold inBox. cbn. pose proof (draw_position _ H1). pose proof (draw_position _ H2).
      pose proof (draw_position _ H3). lra.
    + split; intros ->; [|reflexivity].
      eexists. split; [reflexivity|]. cbn. split; apply draw_velocity; assumption.
Qed.

(** ** The patrol of the balloons *)















(** ** The response to a collision *)

Lemma obstacleLoop_first r pre o post this :
  (forall o', o' ∈ pre ->
     distance_lt (airplane_position this) (obstacle_position o') (r + 10) = false) ->
  distance_lt (airplane_position this) (obstacle_position o) (r + 10) = true ->
  obstacleLoop r (pre ++ o :: post) this = collide o this.
Proof.
  intros Hpre Ho. induction pre as [|o' pre IH]; simpl.
  - rewrite Ho. reflexivity.
  - rewrite (Hpre o') by (apply elem_of_cons; auto).
    apply IH. intros o'' Hin. apply Hpre. apply elem_of_cons. auto.
Qed.

(** [checkCollisions] answers the first obstacle of the array within the
    collision distance and no other: it takes 20 from the health, ends the
    game when that leaves no health, keeps three tenths of the speed and moves
    the aircraft by 20 times the normalized vector from the obstacle to the
    aircraft, a distance of 20 when that vector has length 1. *)
Theorem collision_response pre o post this :
  isGameOver this = false ->
  obstacles this = pre ++ o :: post ->
  (forall o', o' ∈ pre ->
     distance_lt (airplane_position this) (obstacle_position o')
       (collisionRadius this + 10) = false) ->
  distance_lt (airplane_position this) (obstacle_position o)
    (collisionRadius this + 10) = true ->
  health (checkCollisions this) = (health this - 20)%Z /\
  (isGameOver (checkCollisions this) = true <-> (health this - 20 <= 0)%Z) /\
  speed (checkCollisions this) = speed this * 0.3 /\
  airplane_position (checkCollisions this)
    = add (airplane_position this)
        (multiplyScalar
           (normalize (sub (airplane_position this) (obstacle_position o))) 20) /\
  (lengthSq (normalize (sub (airplane_position this) (obstacle_position o))) == 1 ->
   distanceToSquared (airplane_position (checkCollisions this)) (airplane_position this)
     == 20 * 20).
Proof.
  intros Hg Hobs Hpre Ho. unfold checkCollisions. rewrite Hg, Hobs.
  rewrite (obstacleLoop_first _ pre o post this Hpre Ho).
  unfold collide, gameOver. cbn [health set_health].
  destruct (health this - 20 <=? 0)%Z eqn:E;
    [apply Z.leb_le in E | apply Z.leb_gt in E];
    cbn [health isGameOver speed airplane_position set_health set_isGameOver set_speed
         set_airplane_position].
  - repeat split; try reflexivity; try (intros; assumption).
    intros Hn. unfold distanceToSquared, lengthSq, sub, add, multiplyScalar in *.
    cbn [x y z] in *. nra.
  - rewrite Hg. repeat split; try reflexivity; try (intros; first [lia | discriminate]).
    intros Hn. unfold distanceToSquared, lengthSq, sub, add, multiplyScalar in *.
    cbn [x y z] in *. nra.
Qed.

End Properties.

(** * The properties on sample runs *)

Lemma Sample_sin_range : forall q, -1 <= Sample.sin q <= 1.
Proof.
  intros q. unfold Sample.sin.
  set (p := q - q * q * q / 6 + q * q * q * q * q / 120
            - q * q * q * q * q * q * q / 5040).
  pose proof (Qmin_cases 1 p). pose proof (Qmax_cases (-1) (Qmin 1 p)). lra.
Qed.



(** C2 on a game that is over in hard mode: the health is 0, the game is over,
    and one more frame moves the first balloon from (-400, 60, 300) to
    (-399.8, 60.1, 299.8); the score and the position of the aircraft are
    unchanged. *)
Theorem animate_after_gameOver_moves_balloons :
  health Sample.wrecked = 0%Z /\
  isGameOver Sample.wrecked = true /\
  difficulty Sample.wrecked = hard /\
  hd_error (map balloon_position (balloons Sample.wrecked))
    = Some (mkVector3 (-400) 60 300) /\
  hd_error (map balloon_position
              (balloons (animate (ext := Sample.externals) (Sample.frame 16) Sample.wrecked)))
    = Some (mkVector3 (-399.8) 60.1 299.8) /\
  score (animate (ext := Sample.externals) (Sample.frame 16) Sample.wrecked)
    = score Sample.wrecked /\
  airplane_position (animate (ext := Sample.externals) (Sample.frame 16) Sample.wrecked)
    = airplane_position Sample.wrecked.
Proof. repeat split; vm_compute; reflexivity. Qed.





(** C5, the claim as stated, fails: a landing at the speed 1.05, above the
    threshold 1, slows the aircraft to 0.95 and leaves the health alone. *)
Lemma landing_between_thresholds :
  y (airplane_position (Sample.landing 1.05)) < 0.5 /\
  1 < speed (Sample.landing 1.05) /\
  speed (ground (Sample.landing 1.05)) == 0.95 /\
  health (ground (Sample.landing 1.05)) = health (Sample.landing 1.05).
Proof. repeat split; vm_compute; reflexivity. Qed.

(** C5 as amended, on a landing at the speed 2 from the altitude 0.3: the
    altitude is 0.5 and the health has lost 10. *)
Lemma ground_contact_witness :
  y (airplane_position (Sample.landing 2)) < 0.5 /\
  airplane_position (ground (Sample.landing 2)) = mkVector3 0 0.5 0 /\
  speed (ground (Sample.landing 2)) == 1.9 /\
  health (ground (Sample.landing 2)) = 90%Z.
Proof.
  assert (y (airplane_position (Sample.landing 2)) < 0.5) as Hy by (vm_compute; reflexivity).
  split; [exact Hy|].
  destruct (ground_contact (Sample.landing 2) Hy) as (Hp & Hs & _ & Hh & _).
  split; [rewrite Hp; reflexivity|]. split; [rewrite Hs; vm_compute; reflexivity|].
  assert (1.1 < speed (Sample.landing 2)) as Hv by (vm_compute; reflexivity).
  rewrite (proj1 (Hh Hv)). reflexivity.
Defined.




(** C10 with the sample sine: the tick at the instant 2000 leaves an intensity
    between 0 and 0.6. *)
Lemma weather_intensity_witness :
  (forall q, -1 <= Sample.sin q <= 1) /\
  0 <= weatherIntensity (updateWeather (ext := Sample.externals) 2000 (Sample.start simple))
    <= 0.6.
Proof.
  split; [exact Sample_sin_range|].
  destruct (weather_intensity (ext := Sample.externals) Sample_sin_range 2000
              (Sample.start simple)) as (_ & Hrange & _).
  exact Hrange.
Defined.

(** * The further properties on sample runs *)

(** After the game is over in hard mode, one more frame leaves the game over
    and the health, the score and the bullets as they are. *)
Lemma gameOver_persists_witness :
  isGameOver Sample.wrecked = true /\
  isReset (AnimationFrame (Sample.frame 16)) = false /\
  isGameOver (handle (ext := Sample.externals) (AnimationFrame (Sample.frame 16))
                Sample.wrecked) = true /\
  health (handle (ext := Sample.externals) (AnimationFrame (Sample.frame 16))
            Sample.wrecked) = 0%Z.
Proof.
  assert (isGameOver Sample.wrecked = true) as Hg by reflexivity.
  split; [exact Hg|]. split; [reflexivity|].
  destruct (gameOver_persists (ext := Sample.externals) (AnimationFrame (Sample.frame 16))
              Sample.wrecked Hg) as [Hkeep _].
  destruct (Hkeep eq_refl) as (Ho & Hh & _).
  split; [exact Ho|]. rewrite Hh. reflexivity.
Defined.

(** Two shots 20 ms apart from the start: the first one adds a bullet, the
    second one changes nothing. *)
Lemma shoot_cooldown_witness :
  isGameOver (Sample.start simple) = false /\
  (50 <= 1000 - lastShot (Sample.start simple))%Z /\
  (1020 - 1000 < 50)%Z /\
  length (bullets (shoot (ext := Sample.externals) 1000 (Sample.start simple))) = 1%nat /\
  shoot (ext := Sample.externals) 1020
    (shoot (ext := Sample.externals) 1000 (Sample.start simple))
  = shoot (ext := Sample.externals) 1000 (Sample.start simple).
Proof.
  assert (isGameOver (Sample.start simple) = false) as Hg by reflexivity.
  assert (50 <= 1000 - lastShot (Sample.start simple))%Z as H1 by (vm_compute; discriminate).
  assert (1020 - 1000 < 50)%Z as H2 by reflexivity.
  split; [exact Hg|]. split; [exact H1|]. split; [exact H2|].
  destruct (shoot_cooldown (ext := Sample.externals) 1000 1020 (Sample.start simple) Hg)
    as [_ Hfire].
  destruct (Hfire H1) as (Hb & Hsame & _).
  split; [rewrite Hb; reflexivity | exact (Hsame H2)].
Defined.

(** The key w after its [keydown], with the key s as it was. *)
Lemma key_round_trip_witness :
  "s" <> "w" /\
  key "w" (keydown "w" 0 (Sample.start simple)) = true /\
  key "s" (keydown "w" 0 (Sample.start simple)) = key "s" (Sample.start simple).
Proof.
  assert ("s" <> "w") as Hne by discriminate.
  split; [exact Hne|].
  destruct (key_round_trip "w" 0 (Sample.start simple)) as (Hd & _ & _ & Hother & _).
  split; [exact Hd | exact (proj1 (Hother "s" Hne))].
Defined.

(** The brake from the speed 1 gives 0.95. *)
Lemma brake_floor_witness :
  key "s" (Sample.braking 1) = true /\
  0.05 < speed (Sample.braking 1) /\
  speed (updateFlight (ext := Sample.externals) (Sample.frame 16) (Sample.braking 1))
    == 0.95.
Proof.
  assert (key "s" (Sample.braking 1) = true) as Hs by reflexivity.
  assert (0.05 < speed (Sample.braking 1)) as Hv by reflexivity.
  split; [exact Hs|]. split; [exact Hv|].
  assert (weatherIntensity (Sample.braking 1) <= 0.5) as Hi
    by (vm_compute; discriminate).
  assert (belowFloor (beforeGround (ext := Sample.externals) (Sample.frame 16)
                        (Sample.braking 1)) = false) as Hf
    by (vm_compute; reflexivity).
  assert (inCollision (ext := Sample.externals)
            (ground (beforeGround (ext := Sample.externals) (Sample.frame 16)
                       (Sample.braking 1))) = false) as Hc
    by (vm_compute; reflexivity).
  destruct (brake_floor (ext := Sample.externals) (Sample.frame 16) (Sample.braking 1)
              eq_refl eq_refl Hs Hi Hf Hc) as [Hd _].
  rewrite (Hd Hv). vm_compute. reflexivity.
Defined.

(** With the left arrow down, a frame adds 0.02 to the roll and 0.01 to the
    yaw. *)
Lemma steering_witness :
  isGameOver Sample.banking = false /\
  key "ArrowLeft" Sample.banking = true /\
  roll (updateFlight (ext := Sample.externals) (Sample.frame 16) Sample.banking) == 0.02 /\
  yaw (updateFlight (ext := Sample.externals) (Sample.frame 16) Sample.banking) == 0.01.
Proof.
  assert (isGameOver Sample.banking = false) as Hg by reflexivity.
  assert (key "ArrowLeft" Sample.banking = true) as Hk by reflexivity.
  split; [exact Hg|]. split; [exact Hk|].
  destruct (steering (ext := Sample.externals) (Sample.frame 16) Sample.banking Hg)
    as (_ & _ & _ & _ & Hleft & _).
  destruct (Hleft Hk) as [-> ->]. split; vm_compute; reflexivity.
Defined.


(** 75.5 s after the start the timer shows 1 minute and 15 seconds. *)
Lemma timer_fields_witness :
  (startTime (Sample.start simple) <= 75500)%Z /\
  timerMinutes (elapsedTime (updateTimer 75500 (Sample.start simple))) = 1%Z /\
  timerSeconds (elapsedTime (updateTimer 75500 (Sample.start simple))) = 15%Z.
Proof.
  assert (startTime (Sample.start simple) <= 75500)%Z as Hle by (vm_compute; discriminate).
  split; [exact Hle|].
  destruct (timer_fields 75500 (Sample.start simple) eq_refl Hle) as (_ & Hs & Hm & Hsum).
  change ((75500 - startTime (Sample.start simple)) / 1000)%Z with 75%Z in Hsum.
  lia.
Defined.

(** The right joystick pushed to the vertical coordinate -0.8 gives the
    throttle 0.8 and one step of speed. *)
Lemma joystick_throttle_witness :
  0.3 < - MobileControls.orZero (Some (-0.8)) /\
  speed (snd (MobileControls.handle
                (MobileControls.RightMove (MobileControls.mkVector None (Some (-0.8))))
                (MobileControls.create, Sample.start simple)))
    = Qmin (speed (Sample.start simple) + 0.05) maxSpeed.
Proof.
  assert (0.3 < - MobileControls.orZero (Some (-0.8))) as Ht by reflexivity.
  split; [exact Ht|].
  exact (proj1 (joystick_throttle (MobileControls.mkVector None (Some (-0.8)))
                  MobileControls.create (Sample.start simple)) Ht).
Defined.

(** The records of the sample session on a touch screen. *)
Lemma mobile_callbacks_unit_witness :
  Forall MobileControls.unitInput Sample.touches /\
  Forall (fun controls => unitInput (MobileInput controls))
         (MobileControls.callbacks Sample.touches MobileControls.create).
Proof.
  assert (Forall MobileControls.unitInput Sample.touches) as Hu.
  { repeat constructor; vm_compute; intros H; discriminate H. }
  split; [exact Hu|]. exact (mobile_callbacks_unit Sample.touches Hu).
Defined.

Lemma Sample_random_draw : forall k, isDraw (Sample.random k).
Proof.
  intros k. unfold isDraw, Sample.random, Qle, Qlt. simpl.
  pose proof (Nat.mod_upper_bound k 8). lia.
Qed.

(** The twenty balloons of a hard game drawn from the sample draws. *)
Lemma spawnBalloons_twenty_witness :
  (forall k, isDraw (Sample.random k)) /\
  length (fst (spawnBalloons (ext := Sample.externals) hard Sample.random 0)) = 20%nat /\
  snd (spawnBalloons (ext := Sample.externals) hard Sample.random 0) = 140%nat.
Proof.
  split; [exact Sample_random_draw|].
  destruct (spawnBalloons_twenty (ext := Sample.externals) hard Sample.random 0
              Sample_random_draw) as (Hl & _ & Hn & _).
  split; [exact Hl | exact Hn].
Defined.

Lemma Sample_draws_fair : fairDraws Sample.draws.
Proof. unfold fairDraws, isDraw, Sample.draws. simpl. lra. Qed.

(** The respawn of the balloon hit in the sample crossfire. *)
Lemma respawn_in_box_witness :
  fairDraws Sample.draws /\
  length (balloons (respawn (ext := Sample.externals) Sample.draws
                      (updateBullets Sample.crossfire))) = 3%nat /\
  respawnTimers (respawn (ext := Sample.externals) Sample.draws
                   (updateBullets Sample.crossfire)) = [].
Proof.
  split; [exact Sample_draws_fair|].
  destruct (respawn_in_box (ext := Sample.externals) Sample.draws
              (updateBullets Sample.crossfire) Sample_draws_fair) as [_ Hsome].
  destruct (Hsome (mkBalloon (mkVector3 0 101 0) None) []) as (b & Hb & Ht & _).
  { vm_compute. reflexivity. }
  split; [rewrite Hb, length_app; vm_compute; reflexivity | exact Ht].
Defined.


(** The collision of an aircraft at (195, 100, 0) with the obstacle at
    (200, 100, 0): 20 health lost, and a push of 20 along -x. *)
Lemma collision_response_witness :
  isGameOver Sample.grazing = false /\
  health (checkCollisions (ext := Sample.externals) Sample.grazing) = 80%Z /\
  airplane_position (checkCollisions (ext := Sample.externals) Sample.grazing)
    =v= mkVector3 175 100 0.
Proof.
  assert (isGameOver Sample.grazing = false) as Hg by reflexivity.
  split; [exact Hg|].
  destruct (collision_response (ext := Sample.externals) []
              (mkObstacle (mkVector3 200 100 0))
              (tl Sample.obstacles) Sample.grazing Hg eq_refl)
    as (Hh & _ & _ & Hp & _).
  - intros o' Hin. inversion Hin.
  - vm_compute. reflexivity.
  - split; [rewrite Hh; reflexivity|]. rewrite Hp. vm_compute. repeat split.
Defined.
